(** * zlog: console formatting front-end over zerolog

    A shallow embedding of [zlog.go]: the level-label formatters, the
    stack summarizer [ZMarshalStack], the sink builder [zconsoleWriter],
    the level mapper [setlevel], the dual-sink constructor [Tee] and the
    carried error type [Error].

    Package-level variables of the Go program ([SupportColors],
    [zlogOptions], [loglevel], [ZlogDropStack], the zerolog globals, the
    global [log.Logger]) are the fields of one record [World], threaded
    explicitly through every function that reads or writes them. *)

From Stdlib Require Import ZArith List String Ascii Bool Lia.
From Stdlib Require Import Numbers.DecimalString Numbers.DecimalZ.
Import ListNotations.

Open Scope string_scope.
Open Scope Z_scope.

(** ** Go values and library functions outside the repository *)

(** The dynamic values ([interface{}]) a zerolog console formatter receives:
    the decoded JSON value of a field, or nil when the field is missing. *)
Inductive any : Type :=
| ANil
| AStr (s : string)
| ANumber (digits : string)   (* json.Number, a named string type *)
| ABool (b : bool).

(** [fmt.Sprintf("%s", i)]. *)
Definition Sprintf_s (i : any) : string :=
  match i with
  | ANil => "%!s(<nil>)"
  | AStr s => s
  | ANumber d => d
  | ABool true => "%!s(bool=true)"
  | ABool false => "%!s(bool=false)"
  end.

(** [fmt.Sprint(i)]. *)
Definition Sprint (i : any) : string :=
  match i with
  | ANil => "<nil>"
  | AStr s => s
  | ANumber d => d
  | ABool true => "true"
  | ABool false => "false"
  end.

(** Functions of the Go standard library and runtime that the program
    calls and whose results depend on Unicode tables, the clock or the
    symbol table of the running binary. *)
Class GoRuntime : Type := {
  strings_ToUpper : string -> string;
  strings_TrimSpace : string -> string;
  (** the [%q] verb of [fmt.Printf] on a string *)
  strconv_Quote : string -> string;
  (** [t.Format(layout)] for the time [t] read from the clock *)
  time_Format : string -> Z -> string;
  Func : Type;
  runtime_FuncForPC : Z -> option Func;
  Func_FileLine : Func -> Z -> string * Z
}.

(** [strconv.Itoa]. *)
Definition strconv_Itoa (n : Z) : string :=
  match n with
  | Z0 => "0"
  | _ => NilEmpty.string_of_int (Z.to_int n)
  end.

(** Go's [int] and [uintptr] are 64 bits wide. *)
Definition wrap_int (z : Z) : Z := (z + 2 ^ 63) mod 2 ^ 64 - 2 ^ 63.
Definition wrap_uintptr (z : Z) : Z := z mod 2 ^ 64.

Definition newline : string := String (ascii_of_nat 10) EmptyString.

(** ** Color constants *)

Definition ESC : string := String (ascii_of_nat 27) EmptyString.

Definition _intro : string := ESC ++ "[38;5;".
Definition ResetColor : string := ESC ++ "[0m".
Definition Yellow : string := _intro ++ "226m".
Definition Orange : string := _intro ++ "208m".
Definition Gray : string := _intro ++ "246m".
Definition Green : string := _intro ++ "10m".
Definition Red : string := _intro ++ "196m".
Definition Cyan : string := _intro ++ "45m".
Definition Magenta : string := _intro ++ "207m".
Definition Blue : string := _intro ++ "33m".

Definition Colorize (colorcontrolsequence text : string) : string :=
  colorcontrolsequence ++ text ++ ResetColor.

(** Does the string hold the byte that opens an ANSI escape sequence? *)
Fixpoint has_escape (s : string) : bool :=
  match s with
  | EmptyString => false
  | String c rest => Ascii.eqb c (ascii_of_nat 27) || has_escape rest
  end.

(** ** Output formats and options *)

Definition LogOutputFormat := Z.

Definition FormatColor : LogOutputFormat := 0.
Definition FormatBW : LogOutputFormat := 1.
Definition FormatJson : LogOutputFormat := 2.
Definition FormatUnicode : LogOutputFormat := 3.

Record Options : Type := mkOptions {
  Level : Z;
  TimeFormat : string;
  Format : LogOutputFormat;
  Overwrite : bool
}.

(** The zero value [Options{}]. *)
Definition Options_zero : Options := mkOptions 0 "" FormatColor false.

(** ** Level-label formatters *)

(** What a formatter can observe when zerolog calls it: the live value of
    [SupportColors] and the clock. *)
Record Env : Type := mkEnv {
  env_SupportColors : bool;
  (** [time.Since(zerologStartup)], in nanoseconds *)
  env_since_startup : Z;
  (** [time.Now()] *)
  env_now : Z
}.

(** A [zerolog.Formatter]: the rendered text, and the lines it printed to
    standard output. *)
Definition Formatter : Type := Env -> any -> string * list string.

Section Formatters.
Context `{RT : GoRuntime}.

(** [fmt.Printf("ups, unexpeced level %q\n", ll)]. *)
Definition unexpected_level (ll : string) : string :=
  "ups, unexpeced level " ++ strconv_Quote ll ++ newline.

(** The code after the [if ll, ok := i.(string)] block, shared by the three
    formatters. *)
Definition level_passthrough (i : any) : string :=
  match i with
  | ANil => ""
  | _ => strings_ToUpper (Sprintf_s i)
  end.

(** The [switch ll] of [formatLevelUnicode]; [None] is the default case. *)
Definition switchUnicode (ll : string) : option string :=
  if String.eqb ll "trace" then Some "🔹"
  else if String.eqb ll "debug" then Some "🔷"
  else if String.eqb ll "info" then Some "🟢"
  else if String.eqb ll "warn" then Some "🔶"
  else if String.eqb ll "error" then Some "❌"
  else if String.eqb ll "fatal" then Some "❌"
  else if String.eqb ll "panic" then Some "❌"
  else if String.eqb ll "log" then Some "LOG"
  else if String.eqb ll "" then Some "nolevel"
  else None.

Definition switchBW (ll : string) : option string :=
  if String.eqb ll "trace" then Some "TRC"
  else if String.eqb ll "debug" then Some "DBG"
  else if String.eqb ll "info" then Some "INF"
  else if String.eqb ll "warn" then Some "WRN"
  else if String.eqb ll "error" then Some "ERR"
  else if String.eqb ll "fatal" then Some "FTL"
  else if String.eqb ll "panic" then Some "PNC"
  else if String.eqb ll "log" then Some "LOG"
  else if String.eqb ll "" then Some "nolevel"
  else None.

Definition switchColor (ll : string) : option string :=
  if String.eqb ll "trace" then Some (Gray ++ "TRC" ++ ResetColor)
  else if String.eqb ll "debug" then Some (Gray ++ "DBG" ++ ResetColor)
  else if String.eqb ll "info" then Some (Green ++ "INF" ++ ResetColor)
  else if String.eqb ll "warn" then Some (Orange ++ "WRN" ++ ResetColor)
  else if String.eqb ll "error" then Some (Red ++ "ERR" ++ ResetColor)
  else if String.eqb ll "fatal" then Some (Red ++ "FTL" ++ ResetColor)
  else if String.eqb ll "panic" then Some (Red ++ "PNC" ++ ResetColor)
  else if String.eqb ll "log" then Some "LOG"
  else if String.eqb ll "" then Some "nolevel"
  else None.

(** The common shape of the three formatters: a string goes through the
    switch; its default case prints the diagnostic and falls out of the
    [if]; everything else reaches the passthrough. *)
Definition formatLevelWith (switch : string -> option string) (i : any)
  : string * list string :=
  match i with
  | AStr ll =>
      match switch ll with
      | Some label => (label, [])
      | None => (level_passthrough i, [unexpected_level ll])
      end
  | _ => (level_passthrough i, [])
  end.

Definition formatLevelUnicode : Formatter :=
  fun _ i => formatLevelWith switchUnicode i.

Definition formatLevelBW : Formatter :=
  fun _ i => formatLevelWith switchBW i.

Definition formatLevelColor : Formatter :=
  fun env i =>
    if negb (env_SupportColors env) then formatLevelBW env i
    else formatLevelWith switchColor i.

Definition getFormatter (format : LogOutputFormat) : Formatter :=
  if format =? FormatBW then formatLevelBW
  else if format =? FormatUnicode then formatLevelUnicode
  else if format =? FormatColor then formatLevelColor
  else formatLevelBW.

End Formatters.

(** ** Stack summarizer *)

(** [path.Base]: the last element of a slash-separated path, trailing
    slashes removed first; "." for the empty path and "/" for a path of
    slashes only. *)
Fixpoint drop_slashes (cs : list ascii) : list ascii :=
  match cs with
  | c :: rest => if Ascii.eqb c "/" then drop_slashes rest else cs
  | [] => []
  end.

Fixpoint take_element (cs : list ascii) : list ascii :=
  match cs with
  | c :: rest => if Ascii.eqb c "/" then [] else c :: take_element rest
  | [] => []
  end.

Definition path_Base (path : string) : string :=
  if String.eqb path "" then "."
  else
    let stripped := drop_slashes (rev (list_ascii_of_string path)) in
    match stripped with
    | [] => "/"
    | _ => string_of_list_ascii (rev (take_element stripped))
    end.

(** A Go [error] as [ZMarshalStack] sees it: either it has no [StackTrace]
    method, or it is a [github.com/pkg/errors] error with its frames, each a
    program counter ([errors.Frame] is a [uintptr]). *)
Inductive error : Type :=
| PlainError (msg : string)
| StackError (msg : string) (st : list Z).

Definition cannot_get_fn : string :=
  "Internal zerologformat.306: cannot get fn".

Section StackSummarizer.
Context `{RT : GoRuntime}.

(** The [for i, frame := range st] loop, with [b] the bytes appended so
    far. *)
Fixpoint stack_loop (nlevels i : Z) (b : string) (st : list Z) : string :=
  match st with
  | [] => b
  | frame :: rest =>
      if i >? nlevels then b
      else
        let pc := wrap_uintptr (frame - 1) in
        match runtime_FuncForPC pc with
        | None => cannot_get_fn
        | Some fn =>
            let b := if i >? 0 then b ++ " | " else b in
            let (file, line) := Func_FileLine fn pc in
            let b := b ++ path_Base file in
            let b := b ++ ":" in
            let b := b ++ strconv_Itoa line in
            stack_loop nlevels (i + 1) b rest
        end
  end.

(** [ZMarshalStack], reading the package variable [ZlogDropStack] from its
    first argument. [None] is Go's nil. *)
Definition ZMarshalStack (ZlogDropStack : Z) (err : error) : option string :=
  match err with
  | PlainError _ => None
  | StackError _ st =>
      let nlevels := Z.of_nat (List.length st) in
      let nlevels :=
        if nlevels >? ZlogDropStack
        then wrap_int (nlevels - ZlogDropStack) else nlevels in
      Some (stack_loop nlevels 0 "" st)
  end.

End StackSummarizer.

(** ** zerolog: levels, writers, loggers *)

Inductive ZLevel : Type :=
| TraceLevel | DebugLevel | InfoLevel | WarnLevel | ErrorLevel
| FatalLevel | PanicLevel | NoLevel | Disabled.

(** The numeric value of a [zerolog.Level]; an event passes a logger when
    its level is not below the logger's. *)
Definition level_value (l : ZLevel) : Z :=
  match l with
  | TraceLevel => -1
  | DebugLevel => 0
  | InfoLevel => 1
  | WarnLevel => 2
  | ErrorLevel => 3
  | FatalLevel => 4
  | PanicLevel => 5
  | NoLevel => 6
  | Disabled => 7
  end.

(** [os.O_WRONLY], [os.O_CREATE], [os.O_TRUNC], [os.O_APPEND] (the values of
    Go's syscall package on linux and on windows). *)
Definition O_WRONLY : Z := 0x1.
Definition O_CREATE : Z := 0x40.
Definition O_TRUNC : Z := 0x200.
Definition O_APPEND : Z := 0x400.

(** An open file: what [os.OpenFile(name, flag, perm)] was called with. *)
Record File : Type := mkFile {
  file_name : string;
  file_flag : Z;
  file_perm : Z
}.

(** Where a console writer sends its bytes. [NilFile] is the nil [*os.File]
    that [os.OpenFile] returns beside an error. *)
Inductive Output : Type :=
| Stderr
| ToFile (fd : File)
| ToBuffer
| NilFile.

(** [zerolog.ConsoleWriter], with the fields the program sets. A formatter
    field that is [None] is Go's nil: zerolog then uses its own default. *)
Record ConsoleWriter : Type := mkConsoleWriter {
  cw_Out : Output;
  cw_NoColor : bool;
  cw_TimeFormat : string;
  cw_FormatTimestamp : option Formatter;
  cw_FormatLevel : option Formatter;
  cw_FormatFieldName : option Formatter;
  cw_FormatErrFieldName : option Formatter;
  cw_FormatErrFieldValue : option Formatter
}.

(** An [io.Writer] handed to zerolog: a console writer, or a file that
    receives the raw JSON events. *)
Inductive Writer : Type :=
| WConsole (cw : ConsoleWriter)
| WRaw (out : Output).

(** What [zerolog.New] and [zerolog.MultiLevelWriter] build. *)
Inductive LevelWriter : Type :=
| Discard
| Single (w : Writer)
| Multi (ws : list Writer).

Record Logger : Type := mkLogger {
  lg_w : LevelWriter;
  lg_level : ZLevel;
  (** the hook added by [Context.Timestamp] *)
  lg_timestamp : bool;
  (** the fields accumulated through [With] *)
  lg_context : list (string * any)
}.

(** [zerolog.Context] wraps the logger under construction. *)
Record Context : Type := mkContext { ctx_l : Logger }.

Definition zerolog_New (w : LevelWriter) : Logger :=
  mkLogger w TraceLevel false [].

Definition Logger_Level (l : Logger) (lvl : ZLevel) : Logger :=
  mkLogger (lg_w l) lvl (lg_timestamp l) (lg_context l).

Definition zerolog_Nop : Logger := Logger_Level (zerolog_New Discard) Disabled.

Definition Logger_With (l : Logger) : Context := mkContext l.

Definition Context_Logger (c : Context) : Logger := ctx_l c.

Definition Context_Timestamp (c : Context) : Context :=
  let l := ctx_l c in
  mkContext (mkLogger (lg_w l) (lg_level l) true (lg_context l)).

Definition Context_field (c : Context) (name : string) (v : any) : Context :=
  let l := ctx_l c in
  mkContext (mkLogger (lg_w l) (lg_level l) (lg_timestamp l)
                      (lg_context l ++ [(name, v)])).

Definition Context_Str (c : Context) (name value : string) : Context :=
  Context_field c name (AStr value).

Definition Context_Int (c : Context) (name : string) (value : Z) : Context :=
  Context_field c name (ANumber (strconv_Itoa value)).

(** [Logger.Output]: a fresh logger on [w] that keeps level, hooks and
    context. *)
Definition Logger_Output (l : Logger) (w : Writer) : Logger :=
  mkLogger (Single w) (lg_level l) (lg_timestamp l) (lg_context l).

(** One event as it reaches a writer. *)
Record Event : Type := mkEvent {
  ev_level : ZLevel;
  ev_message : string;
  ev_timestamp : bool;
  ev_fields : list (string * any)
}.

(** Does the logger let an event of level [lvl] through? *)
Definition Logger_should (l : Logger) (lvl : ZLevel) : bool :=
  negb (level_value lvl <? level_value (lg_level l)).

(** What the package leaves to zerolog. [ConsoleWriter_Write] is the
    rendering of one event by a console writer: the bytes sent to its [Out],
    and what the formatters printed to standard output on the way.
    [Fatal_exits l] says whether [l.Fatal()...Msg(...)] ends the process:
    zerolog 1.26 exits only when [l] lets fatal events through, later
    versions exit for every logger. *)
Class Zerolog : Type := {
  ConsoleWriter_Write : ConsoleWriter -> Env -> Event -> string * list string;
  Fatal_exits : Logger -> bool
}.

(** ** Package state *)

Record World : Type := mkWorld {
  SupportColors : bool;
  zlogOptions : Options;
  loglevel : Z;
  ZlogDropStack : Z;
  (** zerolog's global [log.Logger] *)
  log_Logger : Logger;
  (** [zerolog.ErrorStackMarshaler], a function of the drop count in force
      when it is called *)
  zerolog_ErrorStackMarshaler : option (Z -> error -> option string);
  zerolog_TimeFieldFormat : string;
  zerolog_TimestampFieldName : string;
  zerolog_LevelFieldName : string;
  zerolog_MessageFieldName : string;
  (** lines printed to standard output so far *)
  stdout : list string;
  (** [time.Since(zerologStartup)] and [time.Now()] at this moment *)
  since_startup : Z;
  now : Z;
  (** can the file of this name be opened for writing? *)
  can_open : string -> bool
}.

(** A computation over the package state. *)
Definition M (A : Type) : Type := World -> A * World.

Definition ret {A : Type} (a : A) : M A := fun w => (a, w).

Definition bind {A B : Type} (m : M A) (k : A -> M B) : M B :=
  fun w => let (a, w') := m w in k a w'.

Definition get {A : Type} (proj : World -> A) : M A := fun w => (proj w, w).

Definition modify (f : World -> World) : M unit := fun w => (tt, f w).

Declare Scope zlog_scope.
Delimit Scope zlog_scope with zlog.

Notation "x <- m ;; k" := (bind m (fun x => k))
  (at level 61, m at next level, right associativity) : zlog_scope.
Notation "m ;; k" := (bind m (fun _ => k))
  (at level 61, right associativity) : zlog_scope.

Definition set_SupportColors (b : bool) (w : World) : World :=
  mkWorld b (zlogOptions w) (loglevel w) (ZlogDropStack w) (log_Logger w)
    (zerolog_ErrorStackMarshaler w) (zerolog_TimeFieldFormat w)
    (zerolog_TimestampFieldName w) (zerolog_LevelFieldName w)
    (zerolog_MessageFieldName w) (stdout w) (since_startup w) (now w)
    (can_open w).

Definition set_zlogOptions (o : Options) (w : World) : World :=
  mkWorld (SupportColors w) o (loglevel w) (ZlogDropStack w) (log_Logger w)
    (zerolog_ErrorStackMarshaler w) (zerolog_TimeFieldFormat w)
    (zerolog_TimestampFieldName w) (zerolog_LevelFieldName w)
    (zerolog_MessageFieldName w) (stdout w) (since_startup w) (now w)
    (can_open w).

Definition set_loglevel (level : Z) (w : World) : World :=
  mkWorld (SupportColors w) (zlogOptions w) level (ZlogDropStack w)
    (log_Logger w) (zerolog_ErrorStackMarshaler w)
    (zerolog_TimeFieldFormat w) (zerolog_TimestampFieldName w)
    (zerolog_LevelFieldName w) (zerolog_MessageFieldName w) (stdout w)
    (since_startup w) (now w) (can_open w).

Definition set_log_Logger (l : Logger) (w : World) : World :=
  mkWorld (SupportColors w) (zlogOptions w) (loglevel w) (ZlogDropStack w) l
    (zerolog_ErrorStackMarshaler w) (zerolog_TimeFieldFormat w)
    (zerolog_TimestampFieldName w) (zerolog_LevelFieldName w)
    (zerolog_MessageFieldName w) (stdout w) (since_startup w) (now w)
    (can_open w).

(** The five assignments to zerolog's package variables in
    [zconsoleWriter]. *)
Definition set_zerolog_globals
  (marshal : Z -> error -> option string) (timeFieldFormat : string)
  (w : World) : World :=
  mkWorld (SupportColors w) (zlogOptions w) (loglevel w) (ZlogDropStack w)
    (log_Logger w) (Some marshal) timeFieldFormat "_zts" "_zl" "_zm"
    (stdout w) (since_startup w) (now w) (can_open w).

Definition print_stdout (lines : list string) (w : World) : World :=
  mkWorld (SupportColors w) (zlogOptions w) (loglevel w) (ZlogDropStack w)
    (log_Logger w) (zerolog_ErrorStackMarshaler w)
    (zerolog_TimeFieldFormat w) (zerolog_TimestampFieldName w)
    (zerolog_LevelFieldName w) (zerolog_MessageFieldName w)
    (stdout w ++ lines) (since_startup w) (now w) (can_open w).

(** What a formatter called in this state observes. *)
Definition env_of (w : World) : Env :=
  mkEnv (SupportColors w) (since_startup w) (now w).

(** ** Sink builder *)

(** [zerolog.TimeFormatUnix]. *)
Definition zerolog_TimeFormatUnix : string := "".

Fixpoint zeros (n : nat) : string :=
  match n with
  | O => ""
  | S k => "0" ++ zeros k
  end.

(** [fmt.Sprintf("%04d", n)]. *)
Definition Sprintf_04d (n : Z) : string :=
  let digits := strconv_Itoa (Z.abs n) in
  let sign := if n <? 0 then "-" else "" in
  sign ++ zeros (4 - String.length sign - String.length digits) ++ digits.

(** [time.Second], in nanoseconds. *)
Definition time_Second : Z := 1000000000.

Definition set_Out (cw : ConsoleWriter) (out : Output) : ConsoleWriter :=
  mkConsoleWriter out (cw_NoColor cw) (cw_TimeFormat cw)
    (cw_FormatTimestamp cw) (cw_FormatLevel cw) (cw_FormatFieldName cw)
    (cw_FormatErrFieldName cw) (cw_FormatErrFieldValue cw).

Definition set_FormatLevel (cw : ConsoleWriter) (f : Formatter)
  : ConsoleWriter :=
  mkConsoleWriter (cw_Out cw) (cw_NoColor cw) (cw_TimeFormat cw)
    (cw_FormatTimestamp cw) (Some f) (cw_FormatFieldName cw)
    (cw_FormatErrFieldName cw) (cw_FormatErrFieldValue cw).

Definition set_NoColor (cw : ConsoleWriter) (b : bool) : ConsoleWriter :=
  mkConsoleWriter (cw_Out cw) b (cw_TimeFormat cw)
    (cw_FormatTimestamp cw) (cw_FormatLevel cw) (cw_FormatFieldName cw)
    (cw_FormatErrFieldName cw) (cw_FormatErrFieldValue cw).

(** The closures [zconsoleWriter] installs. *)
Definition timestamp_seconds : Formatter :=
  fun env _ =>
    ("[" ++ Sprintf_04d (Z.quot (env_since_startup env) time_Second) ++ "]",
     []).

Definition timestamp_none : Formatter := fun _ _ => ("", []).

Definition fieldName_color : Formatter :=
  fun _ i => (Cyan ++ Sprint i ++ "=" ++ ResetColor, []).

Definition errFieldName_color : Formatter :=
  fun _ _ => (Red ++ "error=" ++ ResetColor, []).

Definition fieldName_plain : Formatter := fun _ i => (Sprint i ++ "=", []).

Definition errFieldName_plain : Formatter := fun _ _ => ("error=", []).

Definition errFieldValue : Formatter := fun _ i => (Sprint i, []).

Section Package.
Context `{RT : GoRuntime} `{ZL : Zerolog}.

Open Scope zlog_scope.

Definition timestamp_layout (layout : string) : Formatter :=
  fun env _ => (time_Format layout (env_now env), []).

(** The [switch o.TimeFormat]: the timestamp formatter, if any, and the
    value [o.TimeFormat] has afterwards. *)
Definition select_timestamp (timeFormat : string)
  : option Formatter * string :=
  if String.eqb timeFormat "s" then
    (Some timestamp_seconds, zerolog_TimeFormatUnix)
  else if String.eqb timeFormat "none" then
    (Some timestamp_none, timeFormat)
  else if String.eqb timeFormat "" || String.eqb timeFormat "default" then
    (Some (timestamp_layout "2006-01-02 15:04:05"), timeFormat)
  else if String.eqb timeFormat "highres" then
    (Some (timestamp_layout "2006-01-02 15:04:05.000"),
     "2006-01-02 15:04:05.000")
  else (None, timeFormat).

Definition zconsoleWriter (o : Options) : M ConsoleWriter :=
  modify (set_zlogOptions o) ;;
  let (timestampFormat, o_TimeFormat) := select_timestamp (TimeFormat o) in
  modify (set_zerolog_globals ZMarshalStack o_TimeFormat) ;;
  let output :=
    mkConsoleWriter Stderr false o_TimeFormat None None None None None in
  let output := set_FormatLevel output (getFormatter (Format o)) in
  colors <- get SupportColors ;;
  let output :=
    if ((Format o =? FormatColor) || (Format o =? FormatUnicode)) && colors
    then
      mkConsoleWriter (cw_Out output) (cw_NoColor output)
        (cw_TimeFormat output) (cw_FormatTimestamp output)
        (cw_FormatLevel output) (Some fieldName_color)
        (Some errFieldName_color) (Some errFieldValue)
    else
      mkConsoleWriter (cw_Out output) (cw_NoColor output)
        (cw_TimeFormat output) (cw_FormatTimestamp output)
        (cw_FormatLevel output) (Some fieldName_plain)
        (Some errFieldName_plain) (Some errFieldValue) in
  let output :=
    match timestampFormat with
    | Some f =>
        mkConsoleWriter (cw_Out output) (cw_NoColor output)
          (cw_TimeFormat output) (Some f) (cw_FormatLevel output)
          (cw_FormatFieldName output) (cw_FormatErrFieldName output)
          (cw_FormatErrFieldValue output)
    | None => output
    end in
  ret output.

(** ** Loggers and the level threshold *)

(** The clamp and the [switch level] of [setlevel]. *)
Definition threshold (level : Z) : ZLevel :=
  let level := if level <? -3 then -3 else level in
  if level =? -3 then FatalLevel
  else if level =? -2 then ErrorLevel
  else if level =? -1 then WarnLevel
  else if level =? 0 then InfoLevel
  else if level =? 1 then DebugLevel
  else TraceLevel.

Definition setlevel (logger : Logger) (level : Z) : M Logger :=
  modify (set_loglevel level) ;;
  ret (Logger_Level logger (threshold level)).

Definition New (o : Options) : M Logger :=
  output <- zconsoleWriter o ;;
  let zlog := Logger_With (zerolog_New (Single (WConsole output))) in
  let zlog :=
    if negb (String.eqb (TimeFormat o) "none")
    then Context_Timestamp zlog else zlog in
  setlevel (Context_Logger zlog) (Level o).

Definition InitL (level : Z) : M unit :=
  l <- New (mkOptions level "" FormatColor false) ;;
  modify (set_log_Logger l).

Definition Init : M unit := InitL 0.

Definition SetLevel (level : Z) : M unit :=
  l <- get log_Logger ;;
  l <- setlevel l level ;;
  modify (set_log_Logger l).

(** ** Tee *)

(** The [flag] that [Tee] passes to [os.OpenFile]. *)
Definition open_flag (o : Options) : Z :=
  let flag := Z.lor O_CREATE O_WRONLY in
  if Overwrite o then Z.lor flag O_APPEND else Z.lor flag O_TRUNC.

(** The sinks of the [switch o.Format] in [Tee]. *)
Definition tee_sinks (o : Options) (console : ConsoleWriter) (fd : Output)
  : M LevelWriter :=
  if Format o =? FormatJson then
    ret (Multi [WConsole console; WRaw fd])
  else
    sc <- get SupportColors ;;
    (if Format o =? FormatBW then modify (set_SupportColors false)
     else ret tt) ;;
    saved <- get zlogOptions ;;
    file <- zconsoleWriter saved ;;
    modify (set_SupportColors sc) ;;
    let file := set_Out file fd in
    let file := set_FormatLevel file formatLevelBW in
    let file := if Format o =? FormatBW then set_NoColor file true else file in
    ret (Multi [WConsole console; WConsole file]).

(** The options [Tee] works with: the first of the variadic [options], or
    [Options{Overwrite: false, Format: FormatBW}] when there is none. *)
Definition Tee_options (options : list Options) : Options :=
  match options with
  | [] => mkOptions 0 "" FormatBW false
  | first :: _ => first
  end.

(** [Tee] from the line after the error check on, with [fd] what
    [os.OpenFile] returned. *)
Definition Tee_build (o : Options) (fd : Output) : M (option Logger) :=
  saved <- get zlogOptions ;;
  console <- zconsoleWriter saved ;;
  multi <- tee_sinks o console fd ;;
  let m :=
    Context_Logger (Context_Timestamp (Logger_With (zerolog_New multi))) in
  level <- get loglevel ;;
  l <- setlevel m level ;;
  ret (Some l).

(** [Tee(fname, options...)]. When the file cannot be opened the code calls
    [log.Fatal()...Msg(...)] on the global logger and has no return of its
    own: the result is [None] when that call ends the process, and otherwise
    [Tee] goes on with the nil file. *)
Definition Tee (fname : string) (options : list Options) : M (option Logger) :=
  let o := Tee_options options in
  openable <- get can_open ;;
  if negb (openable fname) then
    global <- get log_Logger ;;
    if Fatal_exits global then ret None else Tee_build o NilFile
  else
    Tee_build o (ToFile (mkFile fname (open_flag o) 438 (* 0666 *))).

(** ** Errors that carry a log context *)

Record Error : Type := mkError {
  Message : string;
  C : Context;
  augment : Z
}.

Definition NewError (msg : string) : M Error :=
  l <- get log_Logger ;;
  ret (mkError msg (Logger_With l) 0).

Definition Error_Logger (e : Error) : Logger := Context_Logger (C e).

Definition Error_Augment (e : Error) (s : string) : Error :=
  let n := wrap_int (augment e + 1) in
  mkError (Message e)
          (Context_Str (C e) ("nested#" ++ strconv_Itoa n) s) n.

Definition Error_Str (e : Error) (name value : string) : Error :=
  mkError (Message e) (Context_Str (C e) name value) (augment e).

Definition Error_Int (e : Error) (name : string) (value : Z) : Error :=
  mkError (Message e) (Context_Int (C e) name value) (augment e).

(** The options [Error] builds its sink from: [Options{TimeFormat: "none"}]. *)
Definition Error_options : Options := mkOptions 0 "none" FormatColor false.

(** [l.Log().Msg(msg)] on a logger whose writer is the console writer
    [output] with a buffer as [Out]: the bytes that reach the buffer. *)
Definition Log_Msg (l : Logger) (output : ConsoleWriter) (msg : string)
  : M string :=
  if Logger_should l NoLevel then
    w <- get (fun w => w) ;;
    let (buf, printed) :=
      ConsoleWriter_Write output (env_of w)
        (mkEvent NoLevel msg (lg_timestamp l) (lg_context l)) in
    modify (print_stdout printed) ;;
    ret buf
  else ret "".

(** The method [Error()] of [*Error]. *)
Definition Error_Error (e : Error) : M string :=
  output <- zconsoleWriter Error_options ;;
  let output := set_Out output ToBuffer in
  let l := Logger_Output (Context_Logger (C e)) (WConsole output) in
  buf <- Log_Msg l output (Message e) ;;
  ret (strings_TrimSpace buf).

End Package.

(** ** The package state at program start *)

(** zerolog's initial [log.Logger]:
    [zerolog.New(os.Stderr).With().Timestamp().Logger()]. *)
Definition zerolog_default_Logger : Logger :=
  Context_Logger
    (Context_Timestamp (Logger_With (zerolog_New (Single (WRaw Stderr))))).

(** The values of the package variables before [main] runs, on a terminal
    that supports colors and a file system where every file can be
    opened. *)
Definition init_world : World :=
  mkWorld true Options_zero 0 8 zerolog_default_Logger None
    "2006-01-02T15:04:05Z07:00" "time" "level" "message" [] 0 0
    (fun _ => true).

(** ** A concrete runtime, to run the model on examples *)

Definition upper_ascii (c : ascii) : ascii :=
  let n := nat_of_ascii c in
  if ((97 <=? n) && (n <=? 122))%nat then ascii_of_nat (n - 32) else c.

Fixpoint map_string (f : ascii -> ascii) (s : string) : string :=
  match s with
  | EmptyString => EmptyString
  | String c rest => String (f c) (map_string f rest)
  end.

Definition is_space (c : ascii) : bool :=
  let n := nat_of_ascii c in
  ((9 <=? n) && (n <=? 13) || (n =? 32))%nat.

Fixpoint drop_space (cs : list ascii) : list ascii :=
  match cs with
  | c :: rest => if is_space c then drop_space rest else cs
  | [] => []
  end.

Definition trim_ascii (s : string) : string :=
  string_of_list_ascii
    (rev (drop_space (rev (drop_space (list_ascii_of_string s))))).

Definition double_quote : string := String (ascii_of_nat 34) EmptyString.

(** A runtime that agrees with Go on ASCII text without quotes or
    backslashes, and whose binary has one source file: the function at
    program counter [pc], for [0 <= pc < 100], is on line [10 + pc] of
    [/go/src/app/main.go]. *)
#[export] Instance sample_runtime : GoRuntime := {|
  strings_ToUpper := map_string upper_ascii;
  strings_TrimSpace := trim_ascii;
  strconv_Quote := fun s => double_quote ++ s ++ double_quote;
  time_Format := fun layout _ => layout;
  Func := string * Z;
  runtime_FuncForPC := fun pc =>
    if (0 <=? pc) && (pc <? 100)
    then Some ("/go/src/app/main.go", 10 + pc) else None;
  Func_FileLine := fun fn _ => fn
|}.

Definition call_formatter (f : option Formatter) (env : Env) (v : any)
  : string * list string :=
  match f with
  | Some g => g env v
  | None => (Sprint v, [])
  end.

Definition level_name (l : ZLevel) : any :=
  match l with
  | TraceLevel => AStr "trace"
  | DebugLevel => AStr "debug"
  | InfoLevel => AStr "info"
  | WarnLevel => AStr "warn"
  | ErrorLevel => AStr "error"
  | FatalLevel => AStr "fatal"
  | PanicLevel => AStr "panic"
  | NoLevel | Disabled => ANil
  end.

Definition add_part (line part : string) : string :=
  if String.eqb part "" then line
  else if String.eqb line "" then part
  else line ++ " " ++ part.

(** The event reaches the console writer as a JSON object, which it decodes
    into a map: of two fields with the same name the later one stays. *)
Definition field_value (fields : list (string * any)) (name : string) : any :=
  fold_left (fun found kv => if String.eqb (fst kv) name then snd kv else found)
            fields ANil.

Fixpoint insert_name (name : string) (sorted : list string) : list string :=
  match sorted with
  | [] => [name]
  | m :: rest =>
      if String.eqb name m then sorted
      else if String.ltb name m then name :: sorted
      else m :: insert_name name rest
  end.

(** The field names in the order the console writer prints them: sorted,
    with "error" moved to the front. *)
Definition field_order (fields : list (string * any)) : list string :=
  let names := fold_right insert_name [] (map fst fields) in
  if existsb (String.eqb "error") names
  then "error" :: filter (fun n => negb (String.eqb "error" n)) names
  else names.

(** [needsQuote]: a blank, a backslash, a double quote or a byte outside
    the printable ASCII range. *)
Definition needs_quote_char (c : ascii) : bool :=
  let n := nat_of_ascii c in
  ((n <=? 32) || (126 <? n) || (n =? 92) || (n =? 34))%nat.

Fixpoint needsQuote (s : string) : bool :=
  match s with
  | EmptyString => false
  | String c rest => needs_quote_char c || needsQuote rest
  end.

(** The value of a field as the console writer prints it. *)
Definition field_text (v : any) : string :=
  match v with
  | AStr s => if needsQuote s then double_quote ++ s ++ double_quote else s
  | _ => Sprint v
  end.

Fixpoint write_fields (cw : ConsoleWriter) (env : Env)
  (fields : list (string * any)) (names : list string)
  : string * list string :=
  match names with
  | [] => ("", [])
  | name :: rest =>
      let hook :=
        if String.eqb name "error" then cw_FormatErrFieldName cw
        else cw_FormatFieldName cw in
      let (n, p1) := call_formatter hook env (AStr name) in
      let (tail, p2) := write_fields cw env fields rest in
      (" " ++ n ++ field_text (field_value fields name) ++ tail,
       (p1 ++ p2)%list)
  end.

(** A stand-in for zerolog, to run the model on examples: timestamp, level
    and message separated by blanks, then the fields by sorted name, then a
    newline; a logger ends the process on a fatal event when it lets fatal
    events through. The theorems hold for every instance of [Zerolog];
    this one only supplies the instance their closed examples need. *)
#[export] Instance sample_zerolog : Zerolog := {|
  ConsoleWriter_Write := fun cw env ev =>
    let (ts, p1) :=
      call_formatter (cw_FormatTimestamp cw) env
        (if ev_timestamp ev then ANumber "0" else ANil) in
    let (lv, p2) :=
      call_formatter (cw_FormatLevel cw) env (level_name (ev_level ev)) in
    let (fs, p3) :=
      write_fields cw env (ev_fields ev) (field_order (ev_fields ev)) in
    (add_part (add_part ts lv) (ev_message ev) ++ fs ++ newline,
     (p1 ++ p2 ++ p3)%list);
  Fatal_exits := fun l => Logger_should l FatalLevel
|}.

(** The error of the example programs:
    [NewError("Test Message").Int("n", 3).Str("file", "myfile.go")]. *)
Definition example_error : Error :=
  Error_Str (Error_Int (fst (NewError "Test Message" init_world)) "n" 3)
            "file" "myfile.go".

(** The labels the [switch] of the three level formatters has a case
    for: the seven zerolog severities, "log" and the empty string. *)
Definition recognised_labels : list string :=
  ["trace"; "debug"; "info"; "warn"; "error"; "fatal"; "panic"; "log"; ""].

(** The seven severity tags of zerolog. *)
Definition severity_tags : list string :=
  ["trace"; "debug"; "info"; "warn"; "error"; "fatal"; "panic"].

(** How much a threshold lets through: 0 for fatal-only up to 5 for
    trace. *)
Definition verbosity (l : ZLevel) : Z := 4 - level_value l.

(** The text of one frame, [basename:line], when its symbol resolves. *)
Definition frame_text `{RT : GoRuntime} (frame : Z) : option string :=
  let pc := wrap_uintptr (frame - 1) in
  match runtime_FuncForPC pc with
  | None => None
  | Some fn =>
      let (file, line) := Func_FileLine fn pc in
      Some (path_Base file ++ ":" ++ strconv_Itoa line)
  end.

(** Frames after the first one, each led by the separator. *)
Fixpoint separated (rs : list string) : string :=
  match rs with
  | [] => ""
  | r :: rest => " | " ++ r ++ separated rest
  end.

(** The sink [zconsoleWriter] returns, as a function of the options and of
    the value [SupportColors] has during the call. *)
Definition sink_of `{RT : GoRuntime} (o : Options) (colors : bool)
  : ConsoleWriter :=
  mkConsoleWriter Stderr false
    (snd (select_timestamp (TimeFormat o)))
    (fst (select_timestamp (TimeFormat o)))
    (Some (getFormatter (Format o)))
    (Some (if ((Format o =? FormatColor) || (Format o =? FormatUnicode))
                && colors
           then fieldName_color else fieldName_plain))
    (Some (if ((Format o =? FormatColor) || (Format o =? FormatUnicode))
                && colors
           then errFieldName_color else errFieldName_plain))
    (Some errFieldValue).

(** The package state [zconsoleWriter] leaves behind. *)
Definition after_zconsoleWriter `{RT : GoRuntime} (o : Options) (w : World)
  : World :=
  set_zerolog_globals ZMarshalStack (snd (select_timestamp (TimeFormat o)))
    (set_zlogOptions o w).

(** The two sinks of a logger built by [Tee]. *)
Definition tee_console (l : Logger) : option ConsoleWriter :=
  match lg_w l with
  | Multi (WConsole console :: _) => Some console
  | _ => None
  end.

Definition tee_file_sink (l : Logger) : option Writer :=
  match lg_w l with
  | Multi [_; file] => Some file
  | _ => None
  end.

(** The file behind the second sink. *)
Definition tee_file (l : Logger) : option File :=
  match tee_file_sink l with
  | Some (WRaw (ToFile fd)) => Some fd
  | Some (WConsole cw) =>
      match cw_Out cw with
      | ToFile fd => Some fd
      | _ => None
      end
  | _ => None
  end.

(** The same options with another [Level]. *)
Definition with_Level (level : Z) (o : Options) : Options :=
  mkOptions level (TimeFormat o) (Format o) (Overwrite o).

(** A formatter hook that is set and puts no escape byte into its output
    unless the value it formats holds one. *)
Definition adds_no_escape (hook : option Formatter) : Prop :=
  exists f, hook = Some f /\
    forall env i, has_escape (Sprint i) = false ->
                  has_escape (fst (f env i)) = false.

(** ** The rest of the package *)

(** [colormap]. Reading a Go map at a missing key gives the zero value, here
    the empty string. *)
Definition colormap : list (string * string) :=
  [("yellow", Yellow); ("orange", Orange); ("gray", Gray); ("green", Green);
   ("red", Red); ("cyan", Cyan); ("magenta", Magenta); ("blue", Blue)].

Fixpoint map_index (m : list (string * string)) (key : string) : string :=
  match m with
  | [] => ""
  | (k, v) :: rest => if String.eqb key k then v else map_index rest key
  end.

Definition NamedColorize (colorname text : string) : string :=
  map_index colormap colorname ++ text ++ ResetColor.

(** A [*zerolog.Event] as [Logger.Trace] and its siblings return it: [None]
    is the nil event of a logger that holds the level back. *)
Definition Logger_newEvent (l : Logger) (lvl : ZLevel) : option Event :=
  if Logger_should l lvl
  then Some (mkEvent lvl "" (lg_timestamp l) (lg_context l))
  else None.

Definition DisabledLogger : Logger := zerolog_Nop.

Definition Logl (level : Z) : M (option Event) :=
  (recorded <- get loglevel ;;
   if level >? recorded then ret (Logger_newEvent DisabledLogger TraceLevel)
   else
     l <- get log_Logger ;;
     ret (Logger_newEvent l TraceLevel))%zlog.

(** The values of Go's [error] interface that reach this package: a pointer
    to an [Error] of this package, or any other error. *)
Inductive error_value : Type :=
| ZlogError (e : Error)
| OtherError (err : error).

(** [err.Error()] of an error that is not of this package. *)
Definition error_text (err : error) : string :=
  match err with
  | PlainError msg => msg
  | StackError msg _ => msg
  end.

(** [AsZerologError]: the logger and message, or nil and the empty
    string. *)
Definition AsZerologError (e : error_value) : option Logger * string :=
  match e with
  | ZlogError ee => (Some (Context_Logger (C ee)), Message ee)
  | OtherError _ => (None, "")
  end.

Section ErrorNesting.
Context `{RT : GoRuntime} `{ZL : Zerolog}.

(** The method [Err]: the rendered text of [err] becomes the field
    "nested". Rendering an [Error] of this package runs its [Error()]. *)
Definition Error_Err (e : Error) (err : error_value) : M Error :=
  (text <- match err with
           | ZlogError inner => Error_Error inner
           | OtherError other => ret (error_text other)
           end ;;
   ret (mkError (Message e) (Context_Str (C e) "nested" text)
                (augment e)))%zlog.

End ErrorNesting.

(** [strings.Contains]. *)
Fixpoint strings_Contains (s substr : string) : bool :=
  String.prefix substr s ||
  match s with
  | EmptyString => false
  | String _ rest => strings_Contains rest substr
  end.

(** [fmt.Println(line, err)] for an integer and an error. *)
Definition Println_error (line : Z) (err : string) : string :=
  strconv_Itoa line ++ " " ++ err ++ newline.

(** The [init] function that puts the Windows console into ANSI mode.
    [envTerm] is [os.Getenv("TERM")]; [open_err] and [mode_err] are the
    errors of [syscall.Open("CONOUT$")] and [syscall.GetConsoleMode], [None]
    when the call succeeds. The result of the [SetConsoleMode] call is
    dropped by the code. *)
Definition console_init (envTerm : string) (open_err mode_err : option string)
  : M unit :=
  (if strings_Contains envTerm "term" then ret tt
   else
     modify (set_SupportColors false) ;;
     match open_err with
     | Some err => modify (print_stdout [Println_error 53 err])
     | None =>
         match mode_err with
         | Some err => modify (print_stdout [Println_error 92 err])
         | None => modify (set_SupportColors true)
         end
     end)%zlog.

(** One call of a builder method of [Error]. *)
Inductive builder_call : Type :=
| CallStr (name value : string)
| CallInt (name : string) (value : Z)
| CallAugment (s : string).

Definition run_call (e : Error) (c : builder_call) : Error :=
  match c with
  | CallStr name value => Error_Str e name value
  | CallInt name value => Error_Int e name value
  | CallAugment s => Error_Augment e s
  end.

(** The fields a sequence of builder calls is expected to add, when [n]
    augmentations have been made before. *)
Fixpoint fields_of_calls (n : Z) (calls : list builder_call)
  : list (string * any) :=
  match calls with
  | [] => []
  | CallStr name value :: rest => (name, AStr value) :: fields_of_calls n rest
  | CallInt name value :: rest =>
      (name, ANumber (strconv_Itoa value)) :: fields_of_calls n rest
  | CallAugment s :: rest =>
      ("nested#" ++ strconv_Itoa (n + 1), AStr s)
        :: fields_of_calls (n + 1) rest
  end.

Definition count_augment (calls : list builder_call) : Z :=
  Z.of_nat
    (List.length
       (filter (fun c => match c with CallAugment _ => true | _ => false end)
               calls)).

(** The color of the label of a severity tag in [formatLevelColor]. *)
Definition severity_color (tag : string) : string :=
  if String.eqb tag "trace" || String.eqb tag "debug" then Gray
  else if String.eqb tag "info" then Green
  else if String.eqb tag "warn" then Orange
  else Red.

(** The time formats [zconsoleWriter] has a case for. *)
Definition named_time_formats : list string :=
  ["s"; "none"; ""; "default"; "highres"].

(** The same options with another [Format]. *)
Definition with_Format (format : LogOutputFormat) (o : Options) : Options :=
  mkOptions (Level o) (TimeFormat o) format (Overwrite o).

(** The integers from [lo] on, [n] of them. *)
Fixpoint Z_range (lo : Z) (n : nat) : list Z :=
  match n with
  | O => []
  | S k => lo :: Z_range (lo + 1) k
  end.

(** * Properties *)

(** ** The level threshold *)

Lemma threshold_cases (L : Z) :
  (L <= -3 /\ threshold L = FatalLevel) \/
  (L = -2 /\ threshold L = ErrorLevel) \/
  (L = -1 /\ threshold L = WarnLevel) \/
  (L = 0 /\ threshold L = InfoLevel) \/
  (L = 1 /\ threshold L = DebugLevel) \/
  (2 <= L /\ threshold L = TraceLevel).
Proof.
  unfold threshold.
  destruct (Z.ltb_spec L (-3)) as [Hlt | Hge].
  - left. split; [lia | reflexivity].
  - destruct (Z.eqb_spec L (-3)) as [-> | H3];
      [left; split; [lia | reflexivity] |].
    destruct (Z.eqb_spec L (-2)) as [-> | H2]; [right; left; auto |].
    destruct (Z.eqb_spec L (-1)) as [-> | H1]; [do 2 right; left; auto |].
    destruct (Z.eqb_spec L 0) as [-> | H0]; [do 3 right; left; auto |].
    destruct (Z.eqb_spec L 1) as [-> | H1']; [do 4 right; left; auto |].
    do 5 right. split; [lia | reflexivity].
Qed.

Lemma setlevel_result (logger : Logger) (L : Z) (w : World) :
  setlevel logger L w =
  (Logger_Level logger (threshold L), set_loglevel L w).
Proof. reflexivity. Qed.

(** Case analysis on the level, keeping its range as [H]. *)
Ltac by_threshold L H :=
  destruct (threshold_cases L)
    as [[H ->] | [[H ->] | [[H ->] | [[H ->] | [[H ->] | [H ->]]]]]].

(** C1. [setlevel] is total, monotone and clamped: for every integer level
    the returned logger's threshold is one of Fatal, Error, Warn, Info,
    Debug, Trace; a larger level never gives a less verbose threshold;
    every level at most -3 gives Fatal and every level at least 2 gives
    Trace. *)
Theorem setlevel_total_monotone_clamped (logger : Logger) (w : World) :
  (forall L : Z,
      In (lg_level (fst (setlevel logger L w)))
         [FatalLevel; ErrorLevel; WarnLevel; InfoLevel; DebugLevel;
          TraceLevel]) /\
  (forall L1 L2 : Z,
      L1 <= L2 ->
      verbosity (lg_level (fst (setlevel logger L1 w))) <=
      verbosity (lg_level (fst (setlevel logger L2 w)))) /\
  (forall L : Z,
      L <= -3 -> lg_level (fst (setlevel logger L w)) = FatalLevel) /\
  (forall L : Z,
      2 <= L -> lg_level (fst (setlevel logger L w)) = TraceLevel).
Proof.
  repeat split.
  - intros L. rewrite setlevel_result. cbn [fst Logger_Level lg_level].
    by_threshold L H; simpl; tauto.
  - intros L1 L2 Hle. rewrite !setlevel_result.
    cbn [fst Logger_Level lg_level].
    by_threshold L1 H1; by_threshold L2 H2; unfold verbosity; simpl; lia.
  - intros L HL. rewrite setlevel_result. cbn [fst Logger_Level lg_level].
    by_threshold L H; solve [reflexivity | lia].
  - intros L HL. rewrite setlevel_result. cbn [fst Logger_Level lg_level].
    by_threshold L H; solve [reflexivity | lia].
Qed.

Lemma setlevel_total_monotone_clamped_witness :
  -5 <= 7 /\
  verbosity (lg_level (fst (setlevel zerolog_Nop (-5) init_world))) <=
  verbosity (lg_level (fst (setlevel zerolog_Nop 7 init_world))) /\
  lg_level (fst (setlevel zerolog_Nop (-5) init_world)) = FatalLevel /\
  lg_level (fst (setlevel zerolog_Nop 7 init_world)) = TraceLevel.
Proof.
  pose proof (setlevel_total_monotone_clamped zerolog_Nop init_world)
    as [_ [Hmono [Hlow Hhigh]]].
  split; [lia |].
  split; [apply Hmono; lia |].
  split; [apply Hlow; lia | apply Hhigh; lia].
Defined.

(** ** Level labels *)

Section LevelLabels.
Context `{RT : GoRuntime}.

Lemma has_escape_app (s t : string) :
  has_escape (s ++ t) = has_escape s || has_escape t.
Proof.
  induction s as [| c s IH]; simpl; [reflexivity |].
  rewrite IH. now rewrite orb_assoc.
Qed.

(** A label outside the switch falls through every comparison. *)
Lemma eqb_unrecognised (ll : string) :
  ~ In ll recognised_labels ->
  forall tag, In tag recognised_labels -> String.eqb ll tag = false.
Proof.
  intros Hout tag Hin. apply String.eqb_neq. intros ->. exact (Hout Hin).
Qed.

Ltac fall_through H :=
  repeat match goal with
    | |- context [String.eqb ?l ?tag] =>
        rewrite (H tag) by (simpl; tauto)
    end.

Lemma switchBW_default (ll : string) :
  ~ In ll recognised_labels -> switchBW ll = None.
Proof.
  intros Hout. pose proof (eqb_unrecognised ll Hout) as H.
  unfold switchBW. now fall_through H.
Qed.

Lemma switchColor_default (ll : string) :
  ~ In ll recognised_labels -> switchColor ll = None.
Proof.
  intros Hout. pose proof (eqb_unrecognised ll Hout) as H.
  unfold switchColor. now fall_through H.
Qed.

Lemma switchUnicode_default (ll : string) :
  ~ In ll recognised_labels -> switchUnicode ll = None.
Proof.
  intros Hout. pose proof (eqb_unrecognised ll Hout) as H.
  unfold switchUnicode. now fall_through H.
Qed.

(** The three formatters return a label for every value they are given. *)
Lemma formatLevel_total (env : Env) (i : any) :
  (exists label printed, formatLevelBW env i = (label, printed)) /\
  (exists label printed, formatLevelColor env i = (label, printed)) /\
  (exists label printed, formatLevelUnicode env i = (label, printed)).
Proof.
  repeat split.
  - destruct (formatLevelBW env i) as [l p]; eauto.
  - destruct (formatLevelColor env i) as [l p]; eauto.
  - destruct (formatLevelUnicode env i) as [l p]; eauto.
Qed.

(** C6, as amended. For a string that is none of the nine labels the
    switch has a case for (the seven severity tags, "log" and the empty
    string), each of the three level formatters (monochrome, color with
    either color support setting, unicode) returns the uppercased input and
    prints exactly one diagnostic line to standard output; every input, of
    any type, yields a label. *)
Theorem unknown_label_passthrough (env : Env) (ll : string) :
  ~ In ll recognised_labels ->
  formatLevelBW env (AStr ll) = (strings_ToUpper ll, [unexpected_level ll]) /\
  formatLevelColor env (AStr ll) =
    (strings_ToUpper ll, [unexpected_level ll]) /\
  formatLevelUnicode env (AStr ll) =
    (strings_ToUpper ll, [unexpected_level ll]) /\
  unexpected_level ll =
    "ups, unexpeced level " ++ strconv_Quote ll ++ newline /\
  (forall i : any,
      exists label printed, formatLevelBW env i = (label, printed)) /\
  (forall i : any,
      exists label printed, formatLevelColor env i = (label, printed)) /\
  (forall i : any,
      exists label printed, formatLevelUnicode env i = (label, printed)).
Proof.
  intros Hout.
  assert (HBW : formatLevelBW env (AStr ll) =
                (strings_ToUpper ll, [unexpected_level ll])).
  { unfold formatLevelBW, formatLevelWith.
    now rewrite (switchBW_default ll Hout). }
  split; [exact HBW |].
  split.
  { unfold formatLevelColor.
    destruct (env_SupportColors env); simpl; [| exact HBW].
    unfold formatLevelWith. now rewrite (switchColor_default ll Hout). }
  split.
  { unfold formatLevelUnicode, formatLevelWith.
    now rewrite (switchUnicode_default ll Hout). }
  split; [reflexivity |].
  repeat split; intros i; apply (formatLevel_total env i).
Qed.



End LevelLabels.


Lemma unknown_label_passthrough_witness :
  ~ In "notice" recognised_labels /\
  formatLevelBW (env_of init_world) (AStr "notice") =
    ("NOTICE", ["ups, unexpeced level " ++ double_quote ++ "notice"
                ++ double_quote ++ newline]).
Proof.
  assert (Hout : ~ In "notice" recognised_labels).
  { simpl. intuition discriminate. }
  split; [exact Hout |].
  exact (proj1 (unknown_label_passthrough (env_of init_world) "notice" Hout)).
Defined.

(** C6, as stated, fails: "log" is a string outside the seven severity
    tags, and the monochrome formatter returns its label without printing
    a diagnostic; the same holds for the empty string, whose label
    "nolevel" is not the uppercased input either. *)
Lemma unknown_label_counterexample :
  ~ (forall ll,
        ~ In ll severity_tags ->
        snd (formatLevelBW (env_of init_world) (AStr ll)) =
          [unexpected_level ll]) /\
  formatLevelBW (env_of init_world) (AStr "log") = ("LOG", []) /\
  formatLevelBW (env_of init_world) (AStr "") = ("nolevel", []).
Proof.
  split; [| split; reflexivity].
  intros Hclaim.
  assert (Hout : ~ In "log" severity_tags).
  { simpl. intuition discriminate. }
  specialize (Hclaim "log" Hout). discriminate Hclaim.
Qed.


(** ** The stack summarizer *)

Lemma string_app_assoc (a b c : string) : (a ++ b) ++ c = a ++ b ++ c.
Proof. induction a as [| x a IH]; simpl; [reflexivity | now rewrite IH]. Qed.

Lemma string_app_nil_r (a : string) : a ++ "" = a.
Proof. induction a as [| x a IH]; simpl; [reflexivity | now rewrite IH]. Qed.

Lemma concat_separated (r : string) (rs : list string) :
  String.concat " | " (r :: rs) = r ++ separated rs.
Proof.
  revert r. induction rs as [| r' rs IH]; intros r.
  - simpl. now rewrite string_app_nil_r.
  - change (String.concat " | " (r :: r' :: rs))
      with (r ++ " | " ++ String.concat " | " (r' :: rs)).
    rewrite IH. reflexivity.
Qed.

Section StackProperties.
Context `{RT : GoRuntime}.

(** Past the first frame the loop appends separator and text for each
    frame up to and including index [nlevels]. *)
Lemma stack_loop_tail (nlevels : Z) (st : list Z) :
  forall (rs : list string) (i : Z) (b : string),
    Forall2 (fun frame r => frame_text frame = Some r) st rs ->
    0 < i ->
    stack_loop nlevels i b st =
    b ++ separated (firstn (Z.to_nat (nlevels - i + 1)) rs).
Proof.
  induction st as [| frame st IH]; intros rs i b Hrs Hi.
  - inversion Hrs; subst. simpl. rewrite firstn_nil. simpl.
    now rewrite string_app_nil_r.
  - inversion Hrs as [| f r st' rs' Hr Hrest]; subst.
    cbn [stack_loop].
    destruct (Z.gtb_spec i nlevels) as [Hgt | Hle].
    + replace (Z.to_nat (nlevels - i + 1)) with 0%nat by lia.
      simpl. now rewrite string_app_nil_r.
    + unfold frame_text in Hr.
      destruct (runtime_FuncForPC (wrap_uintptr (frame - 1))) as [fn |];
        [| discriminate].
      destruct (Func_FileLine fn (wrap_uintptr (frame - 1))) as [file line].
      injection Hr as <-.
      destruct (Z.gtb_spec i 0) as [_ | Hn]; [| lia].
      rewrite (IH rs' (i + 1)) by (assumption || lia).
      replace (Z.to_nat (nlevels - i + 1))
        with (S (Z.to_nat (nlevels - (i + 1) + 1))) by lia.
      cbn [firstn separated].
      now rewrite !string_app_assoc.
Qed.

(** From index 0 the loop renders the frames of index 0 to [nlevels],
    joined by the separator. *)
Lemma stack_loop_from_zero (nlevels : Z) (st : list Z) (rs : list string) :
  Forall2 (fun frame r => frame_text frame = Some r) st rs ->
  0 <= nlevels ->
  stack_loop nlevels 0 "" st =
  String.concat " | " (firstn (Z.to_nat (nlevels + 1)) rs).
Proof.
  intros Hrs Hn.
  destruct Hrs as [| frame r st rs Hr Hrest].
  - now rewrite firstn_nil.
  - cbn [stack_loop].
    destruct (Z.gtb_spec 0 nlevels) as [Hgt | _]; [lia |].
    unfold frame_text in Hr.
    destruct (runtime_FuncForPC (wrap_uintptr (frame - 1))) as [fn |];
      [| discriminate].
    destruct (Func_FileLine fn (wrap_uintptr (frame - 1))) as [file line].
    injection Hr as <-.
    change (0 >? 0) with false. cbv iota.
    rewrite (stack_loop_tail nlevels st rs (0 + 1)) by (assumption || lia).
    replace (Z.to_nat (nlevels + 1)) with (S (Z.to_nat (nlevels - (0 + 1) + 1)))
      by lia.
    cbn [firstn]. rewrite concat_separated.
    change ("" ++ path_Base file) with (path_Base file).
    now rewrite !string_app_assoc.
Qed.

(** An error without frames gives nil, whatever the drop count. *)
Lemma ZMarshalStack_no_frames (drop : Z) (msg : string) :
  ZMarshalStack drop (PlainError msg) = None.
Proof. reflexivity. Qed.

(** With [F] frames that all resolve and a drop count [0 < N < F], the
    summary holds [F - N + 1] frames: the loop still renders the frame of
    index [F - N]. *)
Lemma ZMarshalStack_frames
  (drop : Z) (msg : string) (st : list Z) (rs : list string) :
  Forall2 (fun frame r => frame_text frame = Some r) st rs ->
  0 < drop < Z.of_nat (List.length st) ->
  Z.of_nat (List.length st) < 2 ^ 63 ->
  ZMarshalStack drop (StackError msg st) =
  Some (String.concat " | "
          (firstn (Z.to_nat (Z.of_nat (List.length st) - drop + 1)) rs)) /\
  Z.of_nat (List.length
              (firstn (Z.to_nat (Z.of_nat (List.length st) - drop + 1)) rs)) =
  Z.of_nat (List.length st) - drop + 1.
Proof.
  intros Hrs Hdrop Hbound.
  assert (Hlen : List.length rs = List.length st).
  { clear -Hrs. induction Hrs; simpl; congruence. }
  split.
  - unfold ZMarshalStack.
    destruct (Z.gtb_spec (Z.of_nat (List.length st)) drop) as [_ | Hle];
      [| lia].
    assert (Hwrap : wrap_int (Z.of_nat (List.length st) - drop) =
                    Z.of_nat (List.length st) - drop).
    { unfold wrap_int.
      rewrite Z.mod_small by lia. lia. }
    rewrite Hwrap.
    now rewrite (stack_loop_from_zero _ st rs) by (assumption || lia).
  - rewrite length_firstn, Hlen. lia.
Qed.

End StackProperties.

(** C4 at a concrete input. With the default drop count 8 and an error of
    ten frames, the summary holds three frames, one more than the two that
    are left after dropping eight. *)
Theorem ZMarshalStack_one_frame_too_many :
  let st := [1; 2; 3; 4; 5; 6; 7; 8; 9; 10] in
  ZMarshalStack (ZlogDropStack init_world) (StackError "boom" st) =
  Some (String.concat " | " ["main.go:10"; "main.go:11"; "main.go:12"]) /\
  Z.of_nat (List.length st) - ZlogDropStack init_world = 2.
Proof. split; reflexivity. Qed.

(** ** The sink builder *)

Section SinkProperties.
Context `{RT : GoRuntime} `{ZL : Zerolog}.

Lemma zconsoleWriter_result (o : Options) (w : World) :
  zconsoleWriter o w = (sink_of o (SupportColors w), after_zconsoleWriter o w).
Proof.
  unfold zconsoleWriter, sink_of, after_zconsoleWriter, bind, modify, get, ret.
  cbn beta iota.
  destruct (select_timestamp (TimeFormat o)) as [[f |] tf]; cbn;
    destruct ((Format o =? FormatColor) || (Format o =? FormatUnicode));
    destruct (SupportColors w); reflexivity.
Qed.

End SinkProperties.

(** ** Tee *)

Section TeeProperties.
Context `{RT : GoRuntime} `{ZL : Zerolog}.

(** The file sink of the non-JSON branch, for the saved options [saved]
    and the live color support [colors]. *)
Lemma tee_sinks_console (o : Options) (console : ConsoleWriter) (fd : Output)
  (w : World) :
  (Format o =? FormatJson) = false ->
  tee_sinks o console fd w =
  (let built :=
     sink_of (zlogOptions w)
             (if Format o =? FormatBW then false else SupportColors w) in
   let file := set_FormatLevel (set_Out built fd) formatLevelBW in
   Multi [WConsole console;
          WConsole (if Format o =? FormatBW then set_NoColor file true
                    else file)],
   set_SupportColors (SupportColors w)
     (after_zconsoleWriter (zlogOptions w)
        (if Format o =? FormatBW then set_SupportColors false w else w))).
Proof.
  intros Hjson. unfold tee_sinks. rewrite Hjson.
  unfold bind, get, modify, ret.
  destruct (Format o =? FormatBW); rewrite zconsoleWriter_result; reflexivity.
Qed.

Lemma tee_sinks_json (o : Options) (console : ConsoleWriter) (fd : Output)
  (w : World) :
  (Format o =? FormatJson) = true ->
  tee_sinks o console fd w = (Multi [WConsole console; WRaw fd], w).
Proof. intros Hjson. unfold tee_sinks. now rewrite Hjson. Qed.

(** [tee_sinks] leaves color support, recorded level, file system and the
    saved options as they were (the saved options are written back
    unchanged). *)
Lemma tee_sinks_frame (o : Options) (console : ConsoleWriter) (fd : Output)
  (w : World) :
  let w' := snd (tee_sinks o console fd w) in
  SupportColors w' = SupportColors w /\ loglevel w' = loglevel w /\
  zlogOptions w' = zlogOptions w /\ can_open w' = can_open w.
Proof.
  destruct (Format o =? FormatJson) eqn:Hjson.
  - rewrite tee_sinks_json by assumption. simpl. auto.
  - rewrite tee_sinks_console by assumption. simpl.
    destruct (Format o =? FormatBW); simpl; auto.
Qed.

(** [Tee] from the error check on. *)
Lemma Tee_build_run (o : Options) (fd : Output) (w : World) :
  Tee_build o fd w =
  (let console := sink_of (zlogOptions w) (SupportColors w) in
   let w1 := after_zconsoleWriter (zlogOptions w) w in
   let sinks := tee_sinks o console fd w1 in
   (Some (mkLogger (fst sinks) (threshold (loglevel w)) true []),
    set_loglevel (loglevel w) (snd sinks))).
Proof.
  unfold Tee_build, bind, get.
  rewrite zconsoleWriter_result.
  cbv zeta.
  pose proof (tee_sinks_frame o
                (sink_of (zlogOptions w) (SupportColors w)) fd
                (after_zconsoleWriter (zlogOptions w) w)) as Hframe.
  destruct (tee_sinks o (sink_of (zlogOptions w) (SupportColors w)) fd
              (after_zconsoleWriter (zlogOptions w) w)) as [multi w2].
  cbn [snd fst] in *. destruct Hframe as [_ [Hlevel _]].
  cbn [loglevel after_zconsoleWriter set_zerolog_globals set_zlogOptions]
    in Hlevel.
  unfold setlevel, bind, modify, ret. rewrite Hlevel. reflexivity.
Qed.

(** [Tee] on a file that can be opened. *)
Lemma Tee_run (fname : string) (options : list Options) (w : World) :
  can_open w fname = true ->
  Tee fname options w =
  (let o := Tee_options options in
   let fd := ToFile (mkFile fname (open_flag o) 438) in
   let console := sink_of (zlogOptions w) (SupportColors w) in
   let w1 := after_zconsoleWriter (zlogOptions w) w in
   let sinks := tee_sinks o console fd w1 in
   (Some (mkLogger (fst sinks) (threshold (loglevel w)) true []),
    set_loglevel (loglevel w) (snd sinks))).
Proof.
  intros Hopen. unfold Tee, bind, get. rewrite Hopen. cbn [negb].
  apply Tee_build_run.
Qed.

End TeeProperties.

Section TeeClaims.
Context `{RT : GoRuntime} `{ZL : Zerolog}.




Lemma New_loglevel (o : Options) (w : World) :
  loglevel (snd (New o w)) = Level o.
Proof.
  unfold New, bind. rewrite zconsoleWriter_result. reflexivity.
Qed.

(** C10. [Tee] ignores the [Level] of its options: the threshold of the
    logger it returns is the one [setlevel] derives from the recorded
    [loglevel], which [Tee] leaves as it was; replacing the [Level] of the
    options changes nothing. The recorded level is the one last given to
    [setlevel], through [New], [InitL] or [SetLevel], and 0 at program
    start. *)
Theorem Tee_ignores_Level (fname : string) (options : list Options)
  (w : World) :
  can_open w fname = true ->
  (exists l w',
      Tee fname options w = (Some l, w') /\
      lg_level l = threshold (loglevel w) /\
      lg_level l = lg_level (fst (setlevel l (loglevel w) w)) /\
      loglevel w' = loglevel w) /\
  (forall o rest level,
      options = o :: rest ->
      Tee fname (with_Level level o :: rest) w = Tee fname options w) /\
  (forall logger L w0, loglevel (snd (setlevel logger L w0)) = L) /\
  (forall o w0, loglevel (snd (New o w0)) = Level o) /\
  (forall L w0, loglevel (snd (InitL L w0)) = L) /\
  (forall L w0, loglevel (snd (SetLevel L w0)) = L) /\
  loglevel init_world = 0.
Proof.
  intros Hopen. split; [| split].
  - rewrite Tee_run by assumption. cbv zeta.
    do 2 eexists. split; [reflexivity |].
    split; [reflexivity |]. split; [reflexivity |]. reflexivity.
  - intros o rest level ->. reflexivity.
  - split; [reflexivity |]. split; [exact New_loglevel |].
    split; [| split; reflexivity].
    intros L w0. unfold InitL, bind.
    pose proof (New_loglevel (mkOptions L "" FormatColor false) w0) as H.
    destruct (New (mkOptions L "" FormatColor false) w0) as [l w1].
    exact H.
Qed.

End TeeClaims.

(** ** Color in the sinks *)

Lemma has_escape_ResetColor : has_escape ResetColor = true.
Proof. reflexivity. Qed.

Lemma fieldName_plain_no_escape : adds_no_escape (Some fieldName_plain).
Proof.
  exists fieldName_plain. split; [reflexivity |].
  intros env i Hi. unfold fieldName_plain. cbn [fst].
  rewrite has_escape_app, Hi. reflexivity.
Qed.

Lemma errFieldName_plain_no_escape : adds_no_escape (Some errFieldName_plain).
Proof. exists errFieldName_plain. split; reflexivity. Qed.


(** The colored field-name hook wraps every name in escapes. *)
Lemma fieldName_color_escapes (env : Env) (i : any) :
  has_escape (fst (fieldName_color env i)) = true.
Proof. reflexivity. Qed.

Lemma fieldName_color_not_plain : ~ adds_no_escape (Some fieldName_color).
Proof.
  intros [f [Hf Hplain]]. injection Hf as <-.
  specialize (Hplain (mkEnv true 0 0) (AStr "n") eq_refl).
  discriminate Hplain.
Qed.

Section ColorClaims.
Context `{RT : GoRuntime} `{ZL : Zerolog}.


End ColorClaims.



(** ** Errors rendered as text *)

Section ErrorClaims.
Context `{RT : GoRuntime} `{ZL : Zerolog}.

(** Emitting an event prints what the formatters print and changes nothing
    else of the package state. *)
Lemma Log_Msg_world (l : Logger) (output : ConsoleWriter) (msg : string)
  (w : World) :
  exists printed, snd (Log_Msg l output msg w) = print_stdout printed w.
Proof.
  unfold Log_Msg. destruct (Logger_should l NoLevel).
  - unfold bind, get, modify, ret.
    destruct (ConsoleWriter_Write output (env_of w)
                (mkEvent NoLevel msg (lg_timestamp l) (lg_context l)))
      as [buf printed].
    exists printed. reflexivity.
  - exists []. unfold ret, print_stdout. cbn [snd].
    rewrite app_nil_r. now destruct w.
Qed.

Lemma Error_Error_run (e : Error) (w : World) :
  Error_Error e w =
  (let sink := set_Out (sink_of Error_options (SupportColors w)) ToBuffer in
   let l := Logger_Output (Context_Logger (C e)) (WConsole sink) in
   let r := Log_Msg l sink (Message e) (after_zconsoleWriter Error_options w) in
   (strings_TrimSpace (fst r), snd r)).
Proof.
  unfold Error_Error, bind, ret. rewrite zconsoleWriter_result. cbv zeta.
  now destruct (Log_Msg _ _ (Message e) (after_zconsoleWriter Error_options w)).
Qed.

(** C5, as amended. [Error()] renders the message through a throwaway
    sink built from [Options{TimeFormat: "none"}], whose output goes to a
    buffer, and returns the trimmed text. The sink suppresses the
    timestamp and is in the default Color format: with color support off
    its field hooks add no escape and its level labels hold none; with
    color support on it wraps field names and level labels in color
    escapes. *)
Theorem Error_renders_through_color_sink (e : Error) (w : World) :
  let output := fst (zconsoleWriter Error_options w) in
  let w1 := snd (zconsoleWriter Error_options w) in
  let sink := set_Out output ToBuffer in
  let l := Logger_Output (Context_Logger (C e)) (WConsole sink) in
  fst (Error_Error e w) =
    strings_TrimSpace (fst (Log_Msg l sink (Message e) w1)) /\
  cw_Out sink = ToBuffer /\
  cw_TimeFormat sink = "none" /\
  (exists f, cw_FormatTimestamp sink = Some f /\
             forall env i, f env i = ("", [])) /\
  cw_FormatLevel sink = Some formatLevelColor /\
  (SupportColors w = false ->
   adds_no_escape (cw_FormatFieldName sink) /\
   adds_no_escape (cw_FormatErrFieldName sink) /\
   forall tag, In tag severity_tags ->
     has_escape (fst (formatLevelColor (env_of w1) (AStr tag))) = false) /\
  (SupportColors w = true ->
   cw_FormatFieldName sink = Some fieldName_color /\
   cw_FormatErrFieldName sink = Some errFieldName_color /\
   forall tag, In tag severity_tags ->
     has_escape (fst (formatLevelColor (env_of w1) (AStr tag))) = true).
Proof.
  cbv zeta. rewrite Error_Error_run, zconsoleWriter_result. cbn [fst snd].
  split; [reflexivity |]. split; [reflexivity |]. split; [reflexivity |].
  split; [exists timestamp_none; split; reflexivity |].
  split; [reflexivity |].
  split; intros Hcolors.
  - cbn. rewrite Hcolors.
    split; [apply fieldName_plain_no_escape |].
    split; [apply errFieldName_plain_no_escape |].
    intros tag Hin. unfold formatLevelColor. cbn. rewrite Hcolors. cbn.
    simpl in Hin.
    repeat (destruct Hin as [<- | Hin]; [reflexivity |]). contradiction.
  - cbn. rewrite Hcolors.
    split; [reflexivity |]. split; [reflexivity |].
    intros tag Hin. unfold formatLevelColor. cbn. rewrite Hcolors. cbn.
    simpl in Hin.
    repeat (destruct Hin as [<- | Hin]; [reflexivity |]). contradiction.
Qed.

(** C9. [Error()] leaves [Options{TimeFormat: "none"}] (Color format, level
    0) as the saved options and rewrites zerolog's time, level and message
    field settings, whatever options were saved before. A [Tee] call made
    in that state builds its console sink from these options: the sink
    suppresses the timestamp. *)
Theorem Error_clobbers_saved_options (e : Error) (w : World) :
  let w1 := snd (Error_Error e w) in
  zlogOptions w1 = mkOptions 0 "none" FormatColor false /\
  zerolog_TimeFieldFormat w1 = "none" /\
  zerolog_TimestampFieldName w1 = "_zts" /\
  zerolog_LevelFieldName w1 = "_zl" /\
  zerolog_MessageFieldName w1 = "_zm" /\
  zerolog_ErrorStackMarshaler w1 = Some ZMarshalStack /\
  forall fname options,
    can_open w1 fname = true ->
    exists l w2 console,
      Tee fname options w1 = (Some l, w2) /\
      tee_console l = Some console /\
      console =
        fst (zconsoleWriter (mkOptions 0 "none" FormatColor false) w1) /\
      cw_TimeFormat console = "none" /\
      cw_FormatTimestamp console = Some timestamp_none /\
      cw_FormatLevel console = Some formatLevelColor.
Proof.
  cbv zeta. rewrite Error_Error_run. cbv zeta. cbn [snd].
  destruct (Log_Msg_world
              (Logger_Output (Context_Logger (C e))
                 (WConsole
                    (set_Out (sink_of Error_options (SupportColors w))
                       ToBuffer)))
              (set_Out (sink_of Error_options (SupportColors w)) ToBuffer)
              (Message e) (after_zconsoleWriter Error_options w))
    as [printed ->].
  repeat (split; [reflexivity |]).
  intros fname options Hopen.
  rewrite Tee_run by assumption. cbv zeta.
  do 3 eexists. split; [reflexivity |].
  rewrite zconsoleWriter_result. cbn [fst].
  destruct (Format (Tee_options options) =? FormatJson) eqn:Hjson.
  - rewrite tee_sinks_json by assumption.
    repeat split; reflexivity.
  - rewrite tee_sinks_console by assumption.
    repeat split; reflexivity.
Qed.

End ErrorClaims.

Lemma Error_renders_through_color_sink_witness :
  SupportColors (set_SupportColors false init_world) = false /\
  adds_no_escape
    (cw_FormatFieldName
       (set_Out
          (fst (zconsoleWriter Error_options
                  (set_SupportColors false init_world)))
          ToBuffer)).
Proof.
  pose proof (Error_renders_through_color_sink example_error
                (set_SupportColors false init_world))
    as [_ [_ [_ [_ [_ [Hoff _]]]]]].
  split; [reflexivity |].
  exact (proj1 (Hoff eq_refl)).
Defined.

(** C5, as stated, fails: the sink [Error()] builds is not monochrome
    whatever the color support. With color support on, its field-name hook
    wraps the name of a field in the cyan and reset sequences. *)
Lemma Error_sink_colored_counterexample :
  ~ (forall colors : bool,
        adds_no_escape
          (cw_FormatFieldName
             (fst (zconsoleWriter Error_options
                     (set_SupportColors colors init_world))))) /\
  (exists hook,
      cw_FormatFieldName (fst (zconsoleWriter Error_options init_world))
        = Some hook /\
      hook (env_of init_world) (AStr "n") =
        (Cyan ++ "n=" ++ ResetColor, [])).
Proof.
  split.
  - intros Hclaim. exact (fieldName_color_not_plain (Hclaim true)).
  - exists fieldName_color. split; reflexivity.
Qed.

Lemma Error_clobbers_saved_options_witness :
  let w0 :=
    snd (New (mkOptions 2 "s" FormatUnicode false) init_world) in
  let w1 := snd (Error_Error example_error w0) in
  TimeFormat (zlogOptions w0) = "s" /\
  can_open w1 "out.log" = true /\
  exists l w2 console,
    Tee "out.log" [] w1 = (Some l, w2) /\
    tee_console l = Some console /\
    cw_TimeFormat console = "none".
Proof.
  cbv zeta.
  pose proof (Error_clobbers_saved_options example_error
                (snd (New (mkOptions 2 "s" FormatUnicode false) init_world)))
    as [_ [_ [_ [_ [_ [_ HTee]]]]]].
  split; [reflexivity |]. split; [reflexivity |].
  destruct (HTee "out.log" [] eq_refl)
    as [l [w2 [console [Hrun [Hconsole [_ [Htime _]]]]]]].
  exists l, w2, console. auto.
Defined.

(** ** Tee on concrete calls *)


(** After [SetLevel(-1)], a [Tee] whose options ask for level 2 still
    returns a logger at the Warn threshold. *)
Lemma Tee_ignores_Level_witness :
  let w := snd (SetLevel (-1) init_world) in
  can_open w "out.log" = true /\
  exists l w',
    Tee "out.log" [mkOptions 2 "" FormatBW false] w = (Some l, w') /\
    lg_level l = WarnLevel /\
    loglevel w' = -1.
Proof.
  cbv zeta. split; [reflexivity |].
  destruct (Tee_ignores_Level "out.log" [mkOptions 2 "" FormatBW false]
              (snd (SetLevel (-1) init_world)) eq_refl)
    as [[l [w' [Hrun [Hlevel [_ Hkept]]]]] _].
  exists l, w'.
  split; [exact Hrun |]. split; [exact Hlevel | exact Hkept].
Defined.

(** ** The model on the example programs *)

(** "log" and the empty string have cases of their own in the switch: no
    diagnostic is printed for them. *)
Example labels_log_and_empty :
  formatLevelBW (env_of init_world) (AStr "log") = ("LOG", []) /\
  formatLevelBW (env_of init_world) (AStr "") = ("nolevel", []) /\
  formatLevelUnicode (env_of init_world) (AStr "") = ("nolevel", []) /\
  formatLevelColor (env_of init_world) (AStr "log") = ("LOG", []).
Proof. repeat split. Qed.

(** A missing level field reaches the formatter as nil and gives the empty
    label; a value that is not a string is uppercased without a
    diagnostic. *)
Example labels_not_a_string :
  formatLevelColor (env_of init_world) ANil = ("", []) /\
  formatLevelBW (env_of init_world) (ANumber "7") = ("7", []) /\
  formatLevelBW (env_of init_world) (ABool true) = ("%!S(BOOL=TRUE)", []).
Proof. repeat split. Qed.

Example color_label_info :
  formatLevelColor (env_of init_world) (AStr "info") =
  (ESC ++ "[38;5;10mINF" ++ ESC ++ "[0m", []).
Proof. reflexivity. Qed.

Example path_Base_examples :
  path_Base "/go/src/app/main.go" = "main.go" /\
  path_Base "main.go" = "main.go" /\
  path_Base "dir/sub/" = "sub" /\
  path_Base "///" = "/" /\
  path_Base "" = ".".
Proof. repeat split. Qed.

Example timestamp_seconds_example :
  timestamp_seconds (mkEnv true 4200000000 0) ANil = ("[0004]", []).
Proof. reflexivity. Qed.

(** [InitL(1)] and then the three events of the scenario in the
    specification: trace is held back, debug and info pass. *)
Example level_one_filters_trace :
  let l := log_Logger (snd (InitL 1 init_world)) in
  lg_level l = DebugLevel /\
  Logger_should l TraceLevel = false /\
  Logger_should l DebugLevel = true /\
  Logger_should l InfoLevel = true.
Proof. repeat split. Qed.

(** With a drop count of 8, a trace of 8 frames or fewer is rendered in
    full. *)
Example ZMarshalStack_short_trace :
  ZMarshalStack 8 (StackError "boom" [1; 2]) =
  Some "main.go:10 | main.go:11".
Proof. reflexivity. Qed.

(** A frame whose symbol does not resolve replaces the whole summary. *)
Example ZMarshalStack_unresolved :
  ZMarshalStack 8 (StackError "boom" [1; 500; 3]) = Some cannot_get_fn.
Proof. reflexivity. Qed.

(** * Further properties of the package *)

(** ** Level labels across the three formatters *)

Section FormatterRelations.
Context `{RT : GoRuntime}.

Lemma recognised_has_case (ll : string) :
  In ll recognised_labels ->
  switchBW ll <> None /\ switchColor ll <> None /\ switchUnicode ll <> None.
Proof.
  intros Hin. simpl in Hin.
  repeat (destruct Hin as [<- | Hin]; [repeat split; discriminate |]).
  contradiction.
Qed.

(** Outside the seven severity tags the three switches have the same
    answer. *)
Lemma switches_agree (ll : string) :
  ~ In ll severity_tags ->
  switchColor ll = switchBW ll /\ switchUnicode ll = switchBW ll.
Proof.
  intros Hout. unfold switchColor, switchUnicode, switchBW.
  repeat match goal with
    | |- context [String.eqb ll ?tag] =>
        destruct (String.eqb_spec ll tag) as [-> | ?];
          [first [split; reflexivity | exfalso; apply Hout; simpl; tauto] |]
    end.
  split; reflexivity.
Qed.

(** X1. On every value that is not one of the seven severity tags (another
    string, nil, a number, a boolean) the color and the unicode formatter
    return exactly what the monochrome formatter returns, label and
    diagnostic, whatever the color support. *)
Theorem formatters_agree_off_severity (env : Env) (i : any) :
  (forall tag, In tag severity_tags -> i <> AStr tag) ->
  formatLevelColor env i = formatLevelBW env i /\
  formatLevelUnicode env i = formatLevelBW env i.
Proof.
  intros Hout.
  unfold formatLevelColor, formatLevelUnicode, formatLevelBW.
  destruct i as [| ll | d | b];
    try (destruct (env_SupportColors env); split; reflexivity).
  assert (Hll : ~ In ll severity_tags).
  { intros Hin. exact (Hout ll Hin eq_refl). }
  destruct (switches_agree ll Hll) as [Hc Hu].
  unfold formatLevelWith. rewrite Hc, Hu.
  destruct (env_SupportColors env); split; reflexivity.
Qed.

(** X2. A formatter prints a diagnostic exactly when it is given a string
    that is none of the recognised labels; nil, numbers, booleans and the
    nine recognised labels never print. *)
Theorem diagnostic_iff_unrecognised (env : Env) (i : any) :
  (snd (formatLevelBW env i) <> [] <->
   exists ll, i = AStr ll /\ ~ In ll recognised_labels) /\
  (snd (formatLevelColor env i) <> [] <->
   exists ll, i = AStr ll /\ ~ In ll recognised_labels) /\
  (snd (formatLevelUnicode env i) <> [] <->
   exists ll, i = AStr ll /\ ~ In ll recognised_labels).
Proof.
  assert (Hgen : forall switch,
             (forall ll, ~ In ll recognised_labels -> switch ll = None) ->
             (forall ll, In ll recognised_labels -> switch ll <> None) ->
             snd (formatLevelWith switch i) <> [] <->
             exists ll, i = AStr ll /\ ~ In ll recognised_labels).
  { intros switch Hdefault Hcase. unfold formatLevelWith. split.
    - destruct i as [| ll | d | b]; cbn; try congruence.
      destruct (switch ll) eqn:Hsw; cbn; [congruence |].
      intros _. exists ll. split; [reflexivity |].
      intros Hin. exact (Hcase ll Hin Hsw).
    - intros [ll [-> Hout]]. rewrite (Hdefault ll Hout). cbn. discriminate. }
  assert (HBW := Hgen switchBW switchBW_default
                   (fun ll H => proj1 (recognised_has_case ll H))).
  assert (HColor := Hgen switchColor switchColor_default
                      (fun ll H => proj1 (proj2 (recognised_has_case ll H)))).
  assert (HUni := Hgen switchUnicode switchUnicode_default
                    (fun ll H => proj2 (proj2 (recognised_has_case ll H)))).
  split; [exact HBW |]. split; [| exact HUni].
  unfold formatLevelColor. destruct (env_SupportColors env); cbn.
  - exact HColor.
  - exact HBW.
Qed.

(** X3. With color support on, the color label of each severity tag is the
    monochrome label wrapped by [Colorize] in the color of the severity:
    gray for trace and debug, green for info, orange for warn, red for
    error, fatal and panic. *)
Theorem color_label_wraps_monochrome (env : Env) (tag : string) :
  env_SupportColors env = true ->
  In tag severity_tags ->
  formatLevelColor env (AStr tag) =
  (Colorize (severity_color tag) (fst (formatLevelBW env (AStr tag))), []).
Proof.
  intros Hcolors Hin. unfold formatLevelColor. rewrite Hcolors. cbn [negb].
  simpl in Hin.
  repeat (destruct Hin as [<- | Hin]; [reflexivity |]). contradiction.
Qed.

End FormatterRelations.

Lemma formatters_agree_off_severity_witness :
  formatLevelColor (env_of init_world) (AStr "notice") =
    formatLevelBW (env_of init_world) (AStr "notice") /\
  formatLevelUnicode (env_of init_world) (ABool true) =
    formatLevelBW (env_of init_world) (ABool true).
Proof.
  split.
  - apply (formatters_agree_off_severity (env_of init_world) (AStr "notice")).
    intros tag Hin. simpl in Hin. intuition (subst; discriminate).
  - apply (formatters_agree_off_severity (env_of init_world) (ABool true)).
    intros tag _. discriminate.
Defined.

Lemma color_label_wraps_monochrome_witness :
  formatLevelColor (env_of init_world) (AStr "warn") =
  (Orange ++ "WRN" ++ ResetColor, []).
Proof.
  apply (color_label_wraps_monochrome (env_of init_world) "warn").
  - reflexivity.
  - simpl. tauto.
Defined.

(** ** Named colors *)

Lemma colormap_keys : NoDup (map fst colormap).
Proof. repeat constructor; simpl; intuition discriminate. Qed.

Lemma map_index_missing (m : list (string * string)) (key : string) :
  ~ In key (map fst m) -> map_index m key = "".
Proof.
  induction m as [| [k v] m IH]; intros Hout; [reflexivity |].
  simpl in *. destruct (String.eqb_spec key k) as [-> | Hne].
  - exfalso. apply Hout. now left.
  - apply IH. intros Hin. apply Hout. now right.
Qed.

Lemma map_index_present (m : list (string * string)) (key value : string) :
  NoDup (map fst m) -> In (key, value) m -> map_index m key = value.
Proof.
  induction m as [| [k v] m IH]; intros Hnodup Hin; [contradiction |].
  simpl in *. inversion Hnodup as [| ? ? Hfresh Hrest]; subst.
  destruct Hin as [Heq | Hin].
  - injection Heq as -> ->. now rewrite String.eqb_refl.
  - destruct (String.eqb_spec key k) as [-> | Hne].
    + exfalso. apply Hfresh. apply (in_map fst) in Hin. exact Hin.
    + now apply IH.
Qed.

(** X4. [NamedColorize] with one of the eight names of the color map is
    [Colorize] with that color. With any other name no color is selected:
    the result is the text followed by the reset sequence, so it still holds
    an escape. *)
Theorem NamedColorize_names (colorname text : string) :
  (forall color, In (colorname, color) colormap ->
     NamedColorize colorname text = Colorize color text) /\
  (~ In colorname (map fst colormap) ->
     NamedColorize colorname text = text ++ ResetColor /\
     has_escape (NamedColorize colorname text) = true).
Proof.
  unfold NamedColorize, Colorize. split.
  - intros color Hin.
    now rewrite (map_index_present colormap colorname color colormap_keys Hin).
  - intros Hout. rewrite (map_index_missing colormap colorname Hout).
    split; [reflexivity |].
    cbn [append]. rewrite has_escape_app, has_escape_ResetColor.
    apply orb_true_r.
Qed.

Lemma NamedColorize_names_witness :
  NamedColorize "cyan" "x" = Colorize Cyan "x" /\
  NamedColorize "purple" "x" = "x" ++ ResetColor.
Proof.
  split.
  - apply (NamedColorize_names "cyan" "x"). simpl. tauto.
  - apply (NamedColorize_names "purple" "x"). simpl. intuition discriminate.
Defined.

(** ** The stack summarizer at its edges *)

Section StackEdges.
Context `{RT : GoRuntime}.

Lemma Forall2_length_eq {A B : Type} (R : A -> B -> Prop)
  (xs : list A) (ys : list B) :
  Forall2 R xs ys -> List.length xs = List.length ys.
Proof. induction 1; simpl; congruence. Qed.

Lemma wrap_int_small (z : Z) : - 2 ^ 63 <= z < 2 ^ 63 -> wrap_int z = z.
Proof. intros Hz. unfold wrap_int. rewrite Z.mod_small by lia. lia. Qed.

Lemma wrap_int_high (z : Z) :
  2 ^ 63 <= z < 2 ^ 64 -> wrap_int z = z - 2 ^ 64.
Proof.
  intros Hz. unfold wrap_int.
  replace (z + 2 ^ 63) with (z - 2 ^ 63 + 1 * 2 ^ 64) by lia.
  rewrite Z_mod_plus_full, Z.mod_small by lia. lia.
Qed.

(** With a negative bound the loop returns at once. *)
Lemma stack_loop_negative (nlevels : Z) (b : string) (st : list Z) :
  nlevels < 0 -> stack_loop nlevels 0 b st = b.
Proof.
  intros Hneg. destruct st as [| frame st]; [reflexivity |].
  cbn [stack_loop].
  destruct (Z.gtb_spec 0 nlevels) as [_ | Hle]; [reflexivity | lia].
Qed.

(** X5. For a trace of [F] frames and a drop count [N] (any Go int): the
    trace is rendered in full when [F <= N], and when [N <= 0] as long as
    [F - N] does not overflow; when [F - N] overflows (a drop count below
    [F - 2^63]) the subtraction wraps to a negative bound and the summary
    is the empty string. *)
Theorem ZMarshalStack_keeps_short_traces
  (drop : Z) (msg : string) (st : list Z) (rs : list string) :
  Forall2 (fun frame r => frame_text frame = Some r) st rs ->
  Z.of_nat (List.length st) < 2 ^ 63 ->
  - 2 ^ 63 <= drop < 2 ^ 63 ->
  (Z.of_nat (List.length st) <= drop \/
   (drop <= 0 /\ Z.of_nat (List.length st) - drop < 2 ^ 63) ->
   ZMarshalStack drop (StackError msg st) = Some (String.concat " | " rs)) /\
  (2 ^ 63 <= Z.of_nat (List.length st) - drop ->
   ZMarshalStack drop (StackError msg st) = Some "").
Proof.
  intros Hrs Hbound Hint.
  pose proof (Forall2_length_eq _ _ _ Hrs) as Hlen.
  unfold ZMarshalStack.
  assert (Hall : forall nlevels,
             Z.of_nat (List.length st) <= nlevels ->
             stack_loop nlevels 0 "" st = String.concat " | " rs).
  { intros nlevels Hn.
    rewrite (stack_loop_from_zero nlevels st rs) by (assumption || lia).
    rewrite firstn_all2 by lia. reflexivity. }
  split.
  - intros Hdrop.
    destruct (Z.gtb_spec (Z.of_nat (List.length st)) drop) as [Hgt | Hle].
    + rewrite wrap_int_small by lia. rewrite Hall by lia. reflexivity.
    + rewrite Hall by lia. reflexivity.
  - intros Hover.
    destruct (Z.gtb_spec (Z.of_nat (List.length st)) drop) as [Hgt | Hle];
      [| lia].
    rewrite wrap_int_high by lia.
    rewrite stack_loop_negative by lia. reflexivity.
Qed.

(** The loop stops at the first frame without a symbol. *)
Lemma stack_loop_unresolved (nlevels : Z) (frame : Z) (post : list Z) :
  frame_text frame = None ->
  forall (pre : list Z) (i : Z) (b : string),
    Forall (fun f => frame_text f <> None) pre ->
    i + Z.of_nat (List.length pre) <= nlevels ->
    stack_loop nlevels i b (pre ++ frame :: post) = cannot_get_fn.
Proof.
  intros Hframe. induction pre as [| f pre IH]; intros i b Hpre Hi.
  - cbn [app stack_loop]. simpl in Hi.
    destruct (Z.gtb_spec i nlevels) as [Hgt | _]; [lia |].
    unfold frame_text in Hframe.
    destruct (runtime_FuncForPC (wrap_uintptr (frame - 1))) as [fn |];
      [| reflexivity].
    destruct (Func_FileLine fn (wrap_uintptr (frame - 1))). discriminate.
  - inversion Hpre as [| ? ? Hf Hrest]; subst.
    cbn [app stack_loop]. cbn [List.length] in Hi.
    destruct (Z.gtb_spec i nlevels) as [Hgt | _]; [lia |].
    unfold frame_text in Hf.
    destruct (runtime_FuncForPC (wrap_uintptr (f - 1))) as [fn |];
      [| contradiction].
    destruct (Func_FileLine fn (wrap_uintptr (f - 1))) as [file line].
    apply IH; [assumption | lia].
Qed.

(** X6. When a frame within the rendered range has no symbol, the whole
    summary is the fixed diagnostic text: the frames rendered before it are
    discarded, not returned as a partial trace. *)
Theorem ZMarshalStack_unresolved_frame
  (drop : Z) (msg : string) (pre post : list Z) (frame : Z) :
  Forall (fun f => frame_text f <> None) pre ->
  frame_text frame = None ->
  0 <= drop ->
  Z.of_nat (List.length (pre ++ frame :: post)) < 2 ^ 62 ->
  Z.of_nat (List.length pre) <=
    Z.of_nat (List.length (pre ++ frame :: post)) - drop
  \/ Z.of_nat (List.length (pre ++ frame :: post)) <= drop ->
  ZMarshalStack drop (StackError msg (pre ++ frame :: post)) =
  Some cannot_get_fn.
Proof.
  intros Hpre Hframe Hdrop Hbound Hrange.
  unfold ZMarshalStack.
  assert (Hlen : Z.of_nat (List.length (pre ++ frame :: post)) =
                 Z.of_nat (List.length pre) + 1
                 + Z.of_nat (List.length post)).
  { rewrite length_app. cbn [List.length]. lia. }
  destruct (Z.gtb_spec (Z.of_nat (List.length (pre ++ frame :: post))) drop)
    as [Hgt | Hle].
  - assert (Hwrap : wrap_int
                      (Z.of_nat (List.length (pre ++ frame :: post)) - drop) =
                    Z.of_nat (List.length (pre ++ frame :: post)) - drop).
    { unfold wrap_int. rewrite Z.mod_small by lia. lia. }
    rewrite Hwrap.
    rewrite (stack_loop_unresolved _ frame post Hframe pre 0 "" Hpre)
      by lia.
    reflexivity.
  - rewrite (stack_loop_unresolved _ frame post Hframe pre 0 "" Hpre)
      by lia.
    reflexivity.
Qed.

End StackEdges.

Lemma ZMarshalStack_keeps_short_traces_witness :
  ZMarshalStack 8 (StackError "boom" [1; 2; 3]) =
    Some (String.concat " | " ["main.go:10"; "main.go:11"; "main.go:12"]) /\
  ZMarshalStack 0 (StackError "boom" [1; 2; 3]) =
    Some (String.concat " | " ["main.go:10"; "main.go:11"; "main.go:12"]) /\
  ZMarshalStack (- 2 ^ 63) (StackError "boom" [1; 2; 3]) = Some "".
Proof.
  assert (Hframes : Forall2 (fun frame r => frame_text frame = Some r)
                      [1; 2; 3] ["main.go:10"; "main.go:11"; "main.go:12"])
    by (repeat constructor).
  assert (Hlen : Z.of_nat (List.length [1; 2; 3]) < 2 ^ 63)
    by (simpl; lia).
  split; [| split].
  - apply (ZMarshalStack_keeps_short_traces 8 "boom" _ _ Hframes Hlen);
      [lia |]. left. simpl. lia.
  - apply (ZMarshalStack_keeps_short_traces 0 "boom" _ _ Hframes Hlen);
      [lia |]. right. simpl. lia.
  - apply (ZMarshalStack_keeps_short_traces (- 2 ^ 63) "boom" _ _
             Hframes Hlen); [lia |]. simpl. lia.
Defined.

Lemma ZMarshalStack_unresolved_frame_witness :
  ZMarshalStack 8 (StackError "boom" ([1; 2] ++ 500 :: [3])) =
  Some cannot_get_fn.
Proof.
  apply (ZMarshalStack_unresolved_frame 8 "boom" [1; 2] [3] 500).
  - repeat constructor; discriminate.
  - reflexivity.
  - lia.
  - simpl. lia.
  - right. simpl. lia.
Defined.

(** ** Levels, the global logger and [Logl] *)

Section LevelUse.
Context `{RT : GoRuntime} `{ZL : Zerolog}.

(** X7. The level convention of the package: a logger set to level [L]
    lets trace events through from level 2 on, debug from 1, info from 0,
    warn from -1, error from -2; fatal and panic events and events without
    level pass at every level. *)
Theorem setlevel_filter (logger : Logger) (L : Z) (w : World) :
  let l := fst (setlevel logger L w) in
  Logger_should l TraceLevel = (2 <=? L) /\
  Logger_should l DebugLevel = (1 <=? L) /\
  Logger_should l InfoLevel = (0 <=? L) /\
  Logger_should l WarnLevel = (-1 <=? L) /\
  Logger_should l ErrorLevel = (-2 <=? L) /\
  Logger_should l FatalLevel = true /\
  Logger_should l PanicLevel = true /\
  Logger_should l NoLevel = true.
Proof.
  cbv zeta. rewrite setlevel_result. cbn [fst].
  unfold Logger_should, Logger_Level. cbn [lg_level].
  by_threshold L H; cbn;
    repeat split;
    solve [reflexivity
          | symmetry; apply Z.leb_le; lia
          | symmetry; apply Z.leb_gt; lia].
Qed.

Lemma SetLevel_result (L : Z) (w : World) :
  SetLevel L w =
  (tt, set_log_Logger (Logger_Level (log_Logger w) (threshold L))
         (set_loglevel L w)).
Proof. reflexivity. Qed.

(** X8. After [SetLevel(L)], [Logl(k)] gives a live event exactly when
    [k <= L] and [L >= 2]: the event is a trace event of the global logger,
    which [SetLevel] lets through only from level 2 on. For [L <= 1] every
    [Logl] event is dead, also those with [k <= L]. *)
Theorem Logl_after_SetLevel (L k : Z) (w : World) :
  fst (Logl k (snd (SetLevel L w))) <> None <-> k <= L /\ 2 <= L.
Proof.
  rewrite SetLevel_result. cbn [snd].
  unfold Logl, bind, get, ret.
  cbn [loglevel log_Logger set_log_Logger set_loglevel].
  destruct (Z.gtb_spec k L) as [Hgt | Hle].
  - cbn. split; [congruence | lia].
  - unfold Logger_newEvent, Logger_should, Logger_Level. cbn [lg_level fst].
    by_threshold L H; cbn; split; try congruence; try lia;
      intros _; try discriminate; lia.
Qed.

(** X9. [SetLevel] calls do not accumulate: after [SetLevel(a)] and then
    [SetLevel(b)] the whole package state is the one [SetLevel(b)] alone
    gives. Writer, hooks and context of the global logger stay as they
    were, and the saved options keep the [Level] they had. *)
Theorem SetLevel_last_wins (a b : Z) (w : World) :
  snd (SetLevel b (snd (SetLevel a w))) = snd (SetLevel b w) /\
  lg_w (log_Logger (snd (SetLevel b w))) = lg_w (log_Logger w) /\
  lg_timestamp (log_Logger (snd (SetLevel b w))) =
    lg_timestamp (log_Logger w) /\
  lg_context (log_Logger (snd (SetLevel b w))) = lg_context (log_Logger w) /\
  zlogOptions (snd (SetLevel b w)) = zlogOptions w.
Proof. repeat split. Qed.

(** X10. [InitL(L)] installs as global logger a console logger on standard
    error at the threshold of [L], with the timestamp hook and no context
    fields, and records [L] both as level and in the saved options. A
    later [SetLevel(L')] moves the threshold and the recorded level, but
    the saved options still hold [L]. *)
Theorem InitL_then_SetLevel (L L' : Z) (w : World) :
  let w1 := snd (InitL L w) in
  let w2 := snd (SetLevel L' w1) in
  log_Logger w1 =
    mkLogger (Single (WConsole (sink_of (mkOptions L "" FormatColor false)
                                        (SupportColors w))))
             (threshold L) true [] /\
  loglevel w1 = L /\
  zlogOptions w1 = mkOptions L "" FormatColor false /\
  log_Logger w2 = log_Logger (snd (InitL L' w)) /\
  loglevel w2 = L' /\
  Level (zlogOptions w2) = L.
Proof.
  cbv zeta. unfold InitL, New, bind. rewrite !zconsoleWriter_result.
  repeat split.
Qed.

End LevelUse.

(** ** The sink builder, further *)

Section SinkFurther.
Context `{RT : GoRuntime} `{ZL : Zerolog}.

(** X11. The options [zconsoleWriter] saves are the caller's, also when it
    rewrites the time format for its own use ("s", "highres"). Building
    again from the saved options, as [Tee] does, therefore gives the same
    sink and leaves the package state as it is. *)
Theorem zconsoleWriter_rebuild (o : Options) (w : World) :
  let w1 := snd (zconsoleWriter o w) in
  zlogOptions w1 = o /\
  zconsoleWriter (zlogOptions w1) w1 = (fst (zconsoleWriter o w), w1).
Proof. cbv zeta. rewrite !zconsoleWriter_result. split; reflexivity. Qed.

(** X12. Every format other than Color and Unicode, JSON and numbers
    outside the enumeration included, gives the monochrome sink: monochrome
    level labels and plain field names, whatever the color support. *)
Theorem sink_of_other_formats (o : Options) (w : World) :
  Format o <> FormatColor ->
  Format o <> FormatUnicode ->
  let sink := fst (zconsoleWriter o w) in
  cw_FormatLevel sink = Some formatLevelBW /\
  cw_FormatFieldName sink = Some fieldName_plain /\
  cw_FormatErrFieldName sink = Some errFieldName_plain /\
  sink = fst (zconsoleWriter (with_Format FormatBW o)
                             (set_SupportColors false w)).
Proof.
  intros Hcolor Hunicode. cbv zeta. rewrite !zconsoleWriter_result.
  cbn [fst]. unfold sink_of, getFormatter.
  apply Z.eqb_neq in Hcolor. apply Z.eqb_neq in Hunicode.
  cbn [Format TimeFormat with_Format SupportColors set_SupportColors].
  rewrite Hcolor, Hunicode.
  destruct (Format o =? FormatBW); cbn; repeat split; reflexivity.
Qed.

(** X13. In a Color sink the two kinds of color are decided at different
    times. Field names are colored when color support was on while the
    sink was built; level labels follow the color support at the time of
    each event. A sink built with color support on and used after it was
    switched off prints monochrome labels beside colored field names. *)
Theorem color_sink_build_time_and_call_time
  (o : Options) (w : World) (env : Env) :
  Format o = FormatColor ->
  SupportColors w = true ->
  env_SupportColors env = false ->
  exists level name,
    cw_FormatLevel (fst (zconsoleWriter o w)) = Some level /\
    cw_FormatFieldName (fst (zconsoleWriter o w)) = Some name /\
    (forall i, level env i = formatLevelBW env i) /\
    (forall i, has_escape (fst (name env i)) = true).
Proof.
  intros Hformat Hbuild Hcall. rewrite zconsoleWriter_result. cbn [fst].
  unfold sink_of. rewrite Hformat, Hbuild. cbn.
  exists formatLevelColor, fieldName_color.
  split; [reflexivity |]. split; [reflexivity |]. split.
  - intros i. unfold formatLevelColor. now rewrite Hcall.
  - intros i. reflexivity.
Qed.

Lemma select_timestamp_custom (layout : string) :
  ~ In layout named_time_formats -> select_timestamp layout = (None, layout).
Proof.
  intros Hout. unfold select_timestamp.
  repeat match goal with
    | |- context [String.eqb layout ?name] =>
        destruct (String.eqb_spec layout name) as [-> | ?];
          [exfalso; apply Hout; simpl; tauto |]
    end.
  reflexivity.
Qed.

(** X14. A timestamp formatter is installed exactly for the five named
    time formats. Any other time format is taken as a layout of the
    caller: no formatter is installed and the layout reaches both the sink
    and zerolog's time field format unchanged. In every case the sink and
    zerolog's time field format hold the same layout. *)
Theorem time_format_selection (o : Options) (w : World) :
  let sink := fst (zconsoleWriter o w) in
  let w1 := snd (zconsoleWriter o w) in
  (cw_FormatTimestamp sink = None <->
   ~ In (TimeFormat o) named_time_formats) /\
  (~ In (TimeFormat o) named_time_formats ->
   cw_TimeFormat sink = TimeFormat o) /\
  zerolog_TimeFieldFormat w1 = cw_TimeFormat sink.
Proof.
  cbv zeta. rewrite zconsoleWriter_result. cbn [fst snd].
  unfold sink_of. cbn [cw_FormatTimestamp cw_TimeFormat].
  split; [split |].
  - intros Hnone Hin. simpl in Hin.
    repeat (destruct Hin as [Heq | Hin];
            [rewrite <- Heq in Hnone; discriminate Hnone |]).
    contradiction.
  - intros Hout. now rewrite (select_timestamp_custom _ Hout).
  - split.
    + intros Hout. now rewrite (select_timestamp_custom _ Hout).
    + reflexivity.
Qed.

End SinkFurther.

Lemma sink_of_other_formats_witness :
  cw_FormatLevel
    (fst (zconsoleWriter (mkOptions 0 "" FormatJson false) init_world)) =
  Some formatLevelBW.
Proof.
  apply (sink_of_other_formats (mkOptions 0 "" FormatJson false) init_world);
    discriminate.
Defined.

Lemma color_sink_build_time_and_call_time_witness :
  exists level name,
    cw_FormatLevel (fst (zconsoleWriter Options_zero init_world))
      = Some level /\
    cw_FormatFieldName (fst (zconsoleWriter Options_zero init_world))
      = Some name /\
    (forall i, level (mkEnv false 0 0) i = formatLevelBW (mkEnv false 0 0) i) /\
    (forall i, has_escape (fst (name (mkEnv false 0 0) i)) = true).
Proof.
  apply (color_sink_build_time_and_call_time Options_zero init_world
           (mkEnv false 0 0)); reflexivity.
Defined.

Lemma time_format_selection_witness :
  ~ In "15:04" named_time_formats /\
  cw_TimeFormat
    (fst (zconsoleWriter (mkOptions 0 "15:04" FormatBW false) init_world)) =
  "15:04".
Proof.
  assert (Hout : ~ In "15:04" named_time_formats).
  { simpl. intuition discriminate. }
  split; [exact Hout |].
  exact (proj1 (proj2 (time_format_selection
                         (mkOptions 0 "15:04" FormatBW false) init_world))
               Hout).
Defined.

(** ** Tee, further *)

Section TeeFurther.
Context `{RT : GoRuntime} `{ZL : Zerolog}.

(** X15. [Tee] has no return of its own after [log.Fatal] when the file
    cannot be opened. If the fatal call ends the process, no package
    variable has changed at that point. If it does not, [Tee] goes on with
    the nil file: it builds both sinks from the saved options, rewrites the
    zerolog globals and returns a dual logger at the recorded level whose
    second sink writes to the nil file. *)
Theorem Tee_unopened_file
  (fname : string) (options : list Options) (w : World) :
  can_open w fname = false ->
  (Fatal_exits (log_Logger w) = true -> Tee fname options w = (None, w)) /\
  (Fatal_exits (log_Logger w) = false ->
   exists l w',
     Tee fname options w = (Some l, w') /\
     tee_console l = Some (fst (zconsoleWriter (zlogOptions w) w)) /\
     tee_file l = None /\
     (tee_file_sink l = Some (WRaw NilFile) \/
      exists file,
        tee_file_sink l = Some (WConsole file) /\ cw_Out file = NilFile) /\
     lg_level l = threshold (loglevel w) /\
     zlogOptions w' = zlogOptions w /\
     zerolog_TimestampFieldName w' = "_zts" /\
     zerolog_LevelFieldName w' = "_zl" /\
     zerolog_MessageFieldName w' = "_zm").
Proof.
  intros Hclosed. unfold Tee, bind, get. rewrite Hclosed. cbn [negb].
  split; intros Hfatal; rewrite Hfatal; [reflexivity |].
  rewrite Tee_build_run. cbv zeta. rewrite zconsoleWriter_result.
  do 2 eexists. split; [reflexivity |].
  unfold tee_console, tee_file, tee_file_sink. cbn [lg_w lg_level fst snd].
  destruct (Format (Tee_options options) =? FormatJson) eqn:Hjson.
  - rewrite tee_sinks_json by assumption. cbn [fst snd].
    repeat (split; [reflexivity |]). split; [left; reflexivity |].
    repeat split.
  - rewrite tee_sinks_console by assumption. cbn [fst snd].
    destruct (Format (Tee_options options) =? FormatBW);
      (repeat (split; [reflexivity |]);
       split; [right; eexists; split; reflexivity |]);
      repeat split.
Qed.

(** X16. With format JSON the file sink is the opened file itself, which
    receives the raw events, beside the console sink built from the saved
    options. Color support is not touched, and the package state afterwards
    is the one that building the console sink leaves. *)
Theorem Tee_json_sinks (fname : string) (options : list Options) (w : World) :
  can_open w fname = true ->
  Format (Tee_options options) = FormatJson ->
  exists l,
    Tee fname options w = (Some l, snd (zconsoleWriter (zlogOptions w) w)) /\
    lg_w l =
      Multi [WConsole (fst (zconsoleWriter (zlogOptions w) w));
             WRaw (ToFile (mkFile fname (open_flag (Tee_options options))
                                  438))].
Proof.
  intros Hopen Hjson.
  rewrite Tee_run by assumption. cbv zeta.
  rewrite tee_sinks_json by (rewrite Hjson; reflexivity).
  rewrite zconsoleWriter_result. cbn [fst snd].
  eexists. split; reflexivity.
Qed.

(** X17. The logger [Tee] returns is a fresh one: it has the timestamp
    hook and no context fields, whatever the global logger carries. [Tee]
    does not install it: the global logger is the one it was, and nothing
    is printed to standard output. *)
Theorem Tee_returns_fresh_logger
  (fname : string) (options : list Options) (w : World) :
  can_open w fname = true ->
  exists l w',
    Tee fname options w = (Some l, w') /\
    lg_timestamp l = true /\
    lg_context l = [] /\
    log_Logger w' = log_Logger w /\
    stdout w' = stdout w.
Proof.
  intros Hopen. rewrite Tee_run by assumption. cbv zeta.
  do 2 eexists. split; [reflexivity |].
  split; [reflexivity |]. split; [reflexivity |].
  cbn [log_Logger stdout set_loglevel].
  destruct (Format (Tee_options options) =? FormatJson) eqn:Hjson.
  - rewrite tee_sinks_json by assumption. split; reflexivity.
  - rewrite tee_sinks_console by assumption. cbn [snd].
    destruct (Format (Tee_options options) =? FormatBW); split; reflexivity.
Qed.

(** X18. [Tee] after [New(o)] continues the logger [New] returned: the
    console sink of the dual logger is the sink of that logger, and the
    threshold is the same, whatever [Tee]'s own options are. *)
Theorem Tee_after_New
  (o : Options) (fname : string) (options : list Options) (w : World) :
  can_open w fname = true ->
  let l0 := fst (New o w) in
  let w0 := snd (New o w) in
  exists l w' console,
    Tee fname options w0 = (Some l, w') /\
    tee_console l = Some console /\
    lg_w l0 = Single (WConsole console) /\
    lg_level l = lg_level l0.
Proof.
  intros Hopen. cbv zeta.
  unfold New, bind. rewrite zconsoleWriter_result.
  rewrite setlevel_result. cbn [fst snd].
  rewrite Tee_run by exact Hopen. cbv zeta.
  do 3 eexists. split; [reflexivity |].
  unfold tee_console. cbn [lg_w fst].
  destruct (Format (Tee_options options) =? FormatJson) eqn:Hjson.
  - rewrite tee_sinks_json by assumption. cbn [fst].
    split; [reflexivity |].
    destruct (negb (String.eqb (TimeFormat o) "none")); split; reflexivity.
  - rewrite tee_sinks_console by assumption. cbn [fst].
    split; [reflexivity |].
    destruct (negb (String.eqb (TimeFormat o) "none")); split; reflexivity.
Qed.

End TeeFurther.

Lemma Tee_unopened_file_witness :
  let closed l :=
    mkWorld true Options_zero 0 8 l None
      "" "time" "level" "message" [] 0 0 (fun _ => false) in
  can_open (closed zerolog_Nop) "/nonexistent/out.log" = false /\
  Fatal_exits zerolog_default_Logger = true /\
  Tee "/nonexistent/out.log" [] (closed zerolog_default_Logger) =
    (None, closed zerolog_default_Logger) /\
  Fatal_exits zerolog_Nop = false /\
  exists l w',
    Tee "/nonexistent/out.log" [] (closed zerolog_Nop) = (Some l, w') /\
    tee_file l = None /\
    zerolog_TimestampFieldName w' = "_zts".
Proof.
  cbv zeta. split; [reflexivity |]. split; [reflexivity |]. split.
  - apply (Tee_unopened_file "/nonexistent/out.log" []); reflexivity.
  - assert (Hstays : Fatal_exits zerolog_Nop = false) by reflexivity.
    split; [exact Hstays |].
    destruct (proj2 (Tee_unopened_file "/nonexistent/out.log" []
                       (mkWorld true Options_zero 0 8 zerolog_Nop None
                          "" "time" "level" "message" [] 0 0
                          (fun _ => false))
                       eq_refl) Hstays)
      as [l [w' [Hrun [_ [Hfile [_ [_ [_ [Hts _]]]]]]]]].
    exists l, w'. split; [exact Hrun |]. split; [exact Hfile | exact Hts].
Defined.

Lemma Tee_json_sinks_witness :
  exists l,
    Tee "log.json" [mkOptions 0 "" FormatJson true] init_world =
      (Some l, snd (zconsoleWriter (zlogOptions init_world) init_world)) /\
    tee_file_sink l =
      Some (WRaw (ToFile (mkFile "log.json" 1089 438))).
Proof.
  destruct (Tee_json_sinks "log.json" [mkOptions 0 "" FormatJson true]
              init_world eq_refl eq_refl) as [l [Hrun Hw]].
  exists l. split; [exact Hrun |].
  unfold tee_file_sink. rewrite Hw. reflexivity.
Defined.

Lemma Tee_returns_fresh_logger_witness :
  exists l w',
    Tee "out.log" [] init_world = (Some l, w') /\
    lg_context l = [] /\
    log_Logger w' = zerolog_default_Logger.
Proof.
  destruct (Tee_returns_fresh_logger "out.log" [] init_world eq_refl)
    as [l [w' [Hrun [_ [Hctx [Hlog _]]]]]].
  exists l, w'. split; [exact Hrun |]. split; [exact Hctx | exact Hlog].
Defined.

Lemma Tee_after_New_witness :
  exists l w' console,
    Tee "out.log" []
        (snd (New (mkOptions 1 "s" FormatUnicode false) init_world)) =
      (Some l, w') /\
    tee_console l = Some console /\
    lg_level l = DebugLevel.
Proof.
  destruct (Tee_after_New (mkOptions 1 "s" FormatUnicode false) "out.log" []
              init_world eq_refl)
    as [l [w' [console [Hrun [Hconsole [_ Hlevel]]]]]].
  exists l, w', console.
  split; [exact Hrun |]. split; [exact Hconsole | exact Hlevel].
Defined.

(** ** Errors as context builders *)

Lemma strconv_Itoa_inj (a b : Z) : strconv_Itoa a = strconv_Itoa b -> a = b.
Proof.
  assert (Hitoa : forall n,
             strconv_Itoa n = NilEmpty.string_of_int (Z.to_int n)).
  { intros [| p | p]; reflexivity. }
  rewrite !Hitoa. intros Heq.
  apply DecimalZ.to_int_inj.
  assert (Hsome : Some (Z.to_int a) = Some (Z.to_int b)).
  { rewrite <- !NilEmpty.isi. now rewrite Heq. }
  now injection Hsome.
Qed.

Lemma count_augment_cons (c : builder_call) (calls : list builder_call) :
  count_augment (c :: calls) =
  (match c with CallAugment _ => 1 | _ => 0 end) + count_augment calls.
Proof.
  unfold count_augment. destruct c; cbn [filter List.length]; lia.
Qed.

Lemma count_augment_nonneg (calls : list builder_call) :
  0 <= count_augment calls.
Proof. unfold count_augment. lia. Qed.

(** The state of an [Error] after a sequence of builder calls. *)
Lemma run_calls (calls : list builder_call) :
  forall e : Error,
    0 <= augment e ->
    augment e + count_augment calls < 2 ^ 63 ->
    let e' := fold_left run_call calls e in
    Message e' = Message e /\
    augment e' = augment e + count_augment calls /\
    lg_w (Error_Logger e') = lg_w (Error_Logger e) /\
    lg_level (Error_Logger e') = lg_level (Error_Logger e) /\
    lg_timestamp (Error_Logger e') = lg_timestamp (Error_Logger e) /\
    lg_context (Error_Logger e') =
      (lg_context (Error_Logger e)
         ++ fields_of_calls (augment e) calls)%list.
Proof.
  induction calls as [| c calls IH]; intros e Hlow Hhigh.
  - cbv zeta. cbn [fold_left fields_of_calls].
    unfold count_augment. cbn. rewrite Z.add_0_r, app_nil_r. repeat split.
  - cbv zeta. cbn [fold_left].
    rewrite count_augment_cons in Hhigh |- *.
    pose proof (count_augment_nonneg calls) as Hcount.
    destruct c as [name value | name value | s]; cbn [run_call].
    + destruct (IH (Error_Str e name value)) as [Hm [Ha [Hw [Hl [Ht Hc]]]]];
        [exact Hlow | cbn [augment Error_Str]; lia |].
      cbv zeta in *. rewrite Hm, Ha, Hw, Hl, Ht, Hc.
      cbn -[Z.add]. rewrite <- app_assoc. repeat split; lia.
    + destruct (IH (Error_Int e name value)) as [Hm [Ha [Hw [Hl [Ht Hc]]]]];
        [exact Hlow | cbn [augment Error_Int]; lia |].
      cbv zeta in *. rewrite Hm, Ha, Hw, Hl, Ht, Hc.
      cbn -[Z.add]. rewrite <- app_assoc. repeat split; lia.
    + assert (Hwrap : wrap_int (augment e + 1) = augment e + 1)
        by (apply wrap_int_small; lia).
      destruct (IH (Error_Augment e s)) as [Hm [Ha [Hw [Hl [Ht Hc]]]]].
      * unfold Error_Augment. cbn [augment]. lia.
      * unfold Error_Augment. cbn [augment]. lia.
      * cbv zeta in *. rewrite Hm, Ha, Hw, Hl, Ht, Hc.
        unfold Error_Augment, Error_Logger. cbn -[Z.add]. rewrite Hwrap.
        rewrite <- app_assoc. repeat split; lia.
Qed.

Lemma In_Z_range (lo : Z) (n : nat) (z : Z) :
  In z (Z_range lo n) <-> lo <= z < lo + Z.of_nat n.
Proof.
  revert lo. induction n as [| n IH]; intros lo.
  - simpl. lia.
  - cbn [Z_range In]. rewrite IH. lia.
Qed.

Lemma NoDup_Z_range (lo : Z) (n : nat) : NoDup (Z_range lo n).
Proof.
  revert lo. induction n as [| n IH]; intros lo; cbn [Z_range].
  - constructor.
  - constructor; [| apply IH]. rewrite In_Z_range. lia.
Qed.

Lemma augment_keys (ss : list string) :
  forall n : Z,
    map fst (fields_of_calls n (map CallAugment ss)) =
    map (fun i => "nested#" ++ strconv_Itoa i)
        (Z_range (n + 1) (List.length ss)).
Proof.
  induction ss as [| s ss IH]; intros n; [reflexivity |].
  cbn [map fields_of_calls List.length Z_range fst]. now rewrite IH.
Qed.

Lemma augment_values (ss : list string) :
  forall n : Z,
    map snd (fields_of_calls n (map CallAugment ss)) = map AStr ss.
Proof.
  induction ss as [| s ss IH]; intros n; [reflexivity |].
  cbn [map fields_of_calls snd]. now rewrite IH.
Qed.

Lemma count_augment_all (ss : list string) :
  count_augment (map CallAugment ss) = Z.of_nat (List.length ss).
Proof.
  unfold count_augment. f_equal.
  induction ss as [| s ss IH]; [reflexivity |].
  cbn [map filter List.length]. now rewrite IH.
Qed.

Lemma fold_run_augment (ss : list string) :
  forall e, fold_left run_call (map CallAugment ss) e
            = fold_left Error_Augment ss e.
Proof.
  induction ss as [| s ss IH]; intros e; [reflexivity |].
  cbn [map fold_left run_call]. apply IH.
Qed.

Section ErrorBuilders.
Context `{RT : GoRuntime} `{ZL : Zerolog}.

(** X19. A chain of [Str], [Int] and [Augment] calls on an [Error] keeps
    the message and the logger and appends one field per call, in call
    order, after the fields already there; [AsZerologError] then gives back
    the logger with all these fields, and the message. For an error of
    another type it gives nil and the empty string. *)
Theorem AsZerologError_recovers_fields
  (e : Error) (calls : list builder_call) :
  0 <= augment e ->
  augment e + count_augment calls < 2 ^ 63 ->
  AsZerologError (ZlogError (fold_left run_call calls e)) =
    (Some (mkLogger (lg_w (Error_Logger e)) (lg_level (Error_Logger e))
             (lg_timestamp (Error_Logger e))
             (lg_context (Error_Logger e)
                ++ fields_of_calls (augment e) calls)),
     Message e) /\
  forall other, AsZerologError (OtherError other) = (None, "").
Proof.
  intros Hlow Hhigh.
  destruct (run_calls calls e Hlow Hhigh) as [Hm [_ [Hw [Hl [Ht Hc]]]]].
  cbv zeta in *. split; [| reflexivity].
  unfold AsZerologError. rewrite Hm. f_equal. f_equal.
  unfold Error_Logger in *.
  destruct (Context_Logger (C (fold_left run_call calls e)))
    as [w' l' t' c'].
  cbn in Hw, Hl, Ht, Hc. now subst.
Qed.

(** X20. Repeated [Augment] calls never overwrite one another: they add
    one field per call, holding the given texts in order, under keys
    "nested#n" that are pairwise distinct. *)
Theorem Augment_keys_distinct (e : Error) (ss : list string) :
  0 <= augment e ->
  augment e + Z.of_nat (List.length ss) < 2 ^ 63 ->
  exists added,
    lg_context (Error_Logger (fold_left Error_Augment ss e)) =
      (lg_context (Error_Logger e) ++ added)%list /\
    map snd added = map AStr ss /\
    map fst added =
      map (fun i => "nested#" ++ strconv_Itoa i)
          (Z_range (augment e + 1) (List.length ss)) /\
    NoDup (map fst added).
Proof.
  intros Hlow Hhigh.
  rewrite <- count_augment_all in Hhigh.
  destruct (run_calls (map CallAugment ss) e Hlow Hhigh)
    as [_ [_ [_ [_ [_ Hc]]]]].
  cbv zeta in Hc. rewrite fold_run_augment in Hc.
  exists (fields_of_calls (augment e) (map CallAugment ss)).
  split; [exact Hc |]. split; [apply augment_values |].
  split; [apply augment_keys |].
  rewrite augment_keys.
  apply NoDup_map_NoDup_ForallPairs; [| apply NoDup_Z_range].
  intros i j _ _ Heq. cbn in Heq.
  injection Heq as Heq. now apply strconv_Itoa_inj.
Qed.

(** X21. [Err] does not number its fields: every call adds a field keyed
    "nested", so two calls leave two fields with the same key. Nesting an
    error of another type changes no package state; nesting an [Error] of
    this package runs its [Error()], which replaces the saved options. *)
Theorem Err_fields_share_key (e : Error) (a b : error) (w : World) :
  let r := bind (Error_Err e (OtherError a))
                (fun e1 => Error_Err e1 (OtherError b)) w in
  lg_context (Error_Logger (fst r)) =
    (lg_context (Error_Logger e)
       ++ [("nested", AStr (error_text a));
           ("nested", AStr (error_text b))])%list /\
  snd r = w /\
  forall inner : Error,
    Error_Err e (ZlogError inner) w =
      (Error_Str e "nested" (fst (Error_Error inner w)),
       snd (Error_Error inner w)) /\
    zlogOptions (snd (Error_Err e (ZlogError inner) w)) = Error_options.
Proof.
  cbv zeta. split; [| split].
  - unfold Error_Err, bind, ret, Error_Logger. cbn.
    now rewrite <- app_assoc.
  - reflexivity.
  - intros inner. unfold Error_Err, bind, ret.
    destruct (Error_Error inner w) as [text w1] eqn:Hrun.
    split; [reflexivity |]. cbn [snd].
    pose proof (Error_Error_run inner w) as Hw. rewrite Hrun in Hw.
    cbv zeta in Hw. injection Hw as _ ->.
    destruct (Log_Msg_world
                (Logger_Output (Context_Logger (C inner))
                   (WConsole
                      (set_Out (sink_of Error_options (SupportColors w))
                         ToBuffer)))
                (set_Out (sink_of Error_options (SupportColors w)) ToBuffer)
                (Message inner) (after_zconsoleWriter Error_options w))
      as [printed ->].
    reflexivity.
Qed.

End ErrorBuilders.

Lemma AsZerologError_recovers_fields_witness :
  AsZerologError
    (ZlogError
       (fold_left run_call
          [CallInt "n" 3; CallStr "file" "myfile.go"; CallAugment "again"]
          (fst (NewError "Test Message" init_world)))) =
  (Some (mkLogger (Single (WRaw Stderr)) TraceLevel true
           [("n", ANumber "3"); ("file", AStr "myfile.go");
            ("nested#1", AStr "again")]),
   "Test Message").
Proof.
  apply (AsZerologError_recovers_fields
           (fst (NewError "Test Message" init_world))
           [CallInt "n" 3; CallStr "file" "myfile.go"; CallAugment "again"]).
  - simpl. lia.
  - vm_compute. reflexivity.
Defined.

Lemma Augment_keys_distinct_witness :
  exists added,
    lg_context
      (Error_Logger
         (fold_left Error_Augment ["x"; "x"; "x"]
            (fst (NewError "boom" init_world)))) = added /\
    map fst added = ["nested#1"; "nested#2"; "nested#3"] /\
    NoDup (map fst added).
Proof.
  destruct (Augment_keys_distinct (fst (NewError "boom" init_world))
              ["x"; "x"; "x"])
    as [added [Hctx [_ [Hkeys Hdistinct]]]].
  - simpl. lia.
  - vm_compute. reflexivity.
  - exists added. split; [exact Hctx |]. split; [exact Hkeys | exact Hdistinct].
Defined.

(** ** Rendering an error, further *)

Section ErrorRendering.
Context `{RT : GoRuntime} `{ZL : Zerolog}.

(** X22. [Error()] renders through the logger the error was created
    from, keeping its level. When that logger is disabled, the event is
    dropped and [Error()] returns the trimmed empty text: the message is
    lost. At every other level the text is the rendering of one event
    without level that carries the message and all context fields. *)
Theorem Error_text_by_level (e : Error) (w : World) :
  let sink := set_Out (fst (zconsoleWriter Error_options w)) ToBuffer in
  let w1 := snd (zconsoleWriter Error_options w) in
  (lg_level (Error_Logger e) = Disabled ->
   Error_Error e w = (strings_TrimSpace "", w1)) /\
  (lg_level (Error_Logger e) <> Disabled ->
   fst (Error_Error e w) =
   strings_TrimSpace
     (fst (ConsoleWriter_Write sink (env_of w1)
             (mkEvent NoLevel (Message e)
                (lg_timestamp (Error_Logger e))
                (lg_context (Error_Logger e)))))).
Proof.
  cbv zeta. rewrite Error_Error_run, zconsoleWriter_result. cbv zeta.
  cbn [fst snd]. unfold Log_Msg, Logger_should, Logger_Output, Error_Logger.
  cbn [lg_level lg_timestamp lg_context].
  split; intros Hlevel.
  - rewrite Hlevel. reflexivity.
  - assert (Hpass : (level_value NoLevel
                     <? level_value (lg_level (Context_Logger (C e))))
                    = false).
    { destruct (lg_level (Context_Logger (C e))); try reflexivity.
      contradiction. }
    rewrite Hpass. cbn [negb]. unfold bind, get, modify, ret.
    now destruct (ConsoleWriter_Write _ _ _).
Qed.

(** X23. [Error()] changes neither the color support, nor the recorded
    level, nor the drop count, nor the global logger; standard output only
    grows, by what the formatters print. *)
Theorem Error_leaves_levels_and_logger (e : Error) (w : World) :
  let w1 := snd (Error_Error e w) in
  SupportColors w1 = SupportColors w /\
  loglevel w1 = loglevel w /\
  ZlogDropStack w1 = ZlogDropStack w /\
  log_Logger w1 = log_Logger w /\
  exists printed, stdout w1 = (stdout w ++ printed)%list.
Proof.
  cbv zeta. rewrite Error_Error_run. cbv zeta. cbn [snd].
  destruct (Log_Msg_world
              (Logger_Output (Context_Logger (C e))
                 (WConsole
                    (set_Out (sink_of Error_options (SupportColors w))
                       ToBuffer)))
              (set_Out (sink_of Error_options (SupportColors w)) ToBuffer)
              (Message e) (after_zconsoleWriter Error_options w))
    as [printed ->].
  repeat (split; [reflexivity |]).
  exists printed. reflexivity.
Qed.

End ErrorRendering.

Lemma Error_text_by_level_witness :
  let e := mkError "lost" (Logger_With zerolog_Nop) 0 in
  lg_level (Error_Logger e) = Disabled /\
  fst (Error_Error e init_world) = strings_TrimSpace "" /\
  lg_level (Error_Logger example_error) <> Disabled /\
  fst (Error_Error example_error init_world) =
    strings_TrimSpace
      (fst (ConsoleWriter_Write
              (set_Out (fst (zconsoleWriter Error_options init_world))
                       ToBuffer)
              (env_of (snd (zconsoleWriter Error_options init_world)))
              (mkEvent NoLevel "Test Message" true
                 [("n", ANumber "3"); ("file", AStr "myfile.go")]))).
Proof.
  cbv zeta. split; [reflexivity |]. split.
  - rewrite (proj1 (Error_text_by_level
                      (mkError "lost" (Logger_With zerolog_Nop) 0) init_world)
                   eq_refl).
    reflexivity.
  - assert (Hlevel : lg_level (Error_Logger example_error) <> Disabled)
      by discriminate.
    split; [exact Hlevel |].
    exact (proj2 (Error_text_by_level example_error init_world) Hlevel).
Defined.

(** ** Color support at program start *)

Lemma console_init_result
  (envTerm : string) (open_err mode_err : option string) (w : World) :
  snd (console_init envTerm open_err mode_err w) =
  if strings_Contains envTerm "term" then w
  else
    match open_err, mode_err with
    | Some err, _ =>
        print_stdout [Println_error 53 err] (set_SupportColors false w)
    | None, Some err =>
        print_stdout [Println_error 92 err] (set_SupportColors false w)
    | None, None => set_SupportColors true (set_SupportColors false w)
    end.
Proof.
  unfold console_init.
  destruct (strings_Contains envTerm "term"); [reflexivity |].
  destruct open_err as [err |]; [reflexivity |].
  destruct mode_err as [err |]; reflexivity.
Qed.

(** X24. After the console [init], color support is on exactly when TERM
    contains "term", or the console handle could be opened and its mode
    read. When TERM contains "term" nothing at all is changed or printed;
    otherwise at most one line is printed, and none when both calls
    succeed. *)
Theorem console_init_color_support
  (envTerm : string) (open_err mode_err : option string) (w : World) :
  SupportColors w = true ->
  let w' := snd (console_init envTerm open_err mode_err w) in
  SupportColors w' =
    strings_Contains envTerm "term"
    || (match open_err with None => true | Some _ => false end
        && match mode_err with None => true | Some _ => false end) /\
  (strings_Contains envTerm "term" = true -> w' = w) /\
  exists printed,
    stdout w' = (stdout w ++ printed)%list /\
    (List.length printed <= 1)%nat /\
    (SupportColors w' = true -> printed = []).
Proof.
  intros Hinit. cbv zeta. rewrite console_init_result.
  destruct (strings_Contains envTerm "term").
  - split; [exact Hinit |]. split; [reflexivity |].
    exists []. rewrite app_nil_r. repeat split. simpl. lia.
  - split; [| split; [discriminate |]].
    + destruct open_err, mode_err; reflexivity.
    + destruct open_err as [err |]; [| destruct mode_err as [err |]].
      * exists [Println_error 53 err]. repeat split.
        -- simpl. lia.
        -- discriminate.
      * exists [Println_error 92 err]. repeat split.
        -- simpl. lia.
        -- discriminate.
      * exists []. cbn. rewrite app_nil_r. repeat split. lia.
Qed.

Lemma console_init_color_support_witness :
  SupportColors init_world = true /\
  SupportColors
    (snd (console_init "xterm-256color" (Some "no console") None init_world))
    = true /\
  SupportColors
    (snd (console_init "" (Some "no console") None init_world)) = false.
Proof.
  split; [reflexivity |]. split.
  - rewrite (proj1 (console_init_color_support "xterm-256color"
                      (Some "no console") None init_world eq_refl)).
    reflexivity.
  - rewrite (proj1 (console_init_color_support ""
                      (Some "no console") None init_world eq_refl)).
    reflexivity.
Defined.

(** ** The relative timestamp *)







(** ** New *)

Section NewLogger.
Context `{RT : GoRuntime} `{ZL : Zerolog}.

(** X26. The logger [New] returns depends on the package state only
    through the color support: it takes nothing from the saved options,
    the recorded level or the global logger. It writes to one console sink
    on standard error at the threshold of its level, starts with no
    context fields, and has the timestamp hook unless the time format is
    "none", in which case the sink's timestamp formatter also renders the
    empty text. *)
Theorem New_logger_shape (o : Options) (w : World) :
  (forall w' : World,
      SupportColors w' = SupportColors w -> fst (New o w') = fst (New o w)) /\
  lg_w (fst (New o w)) = Single (WConsole (fst (zconsoleWriter o w))) /\
  cw_Out (fst (zconsoleWriter o w)) = Stderr /\
  lg_level (fst (New o w)) = threshold (Level o) /\
  lg_context (fst (New o w)) = [] /\
  lg_timestamp (fst (New o w)) = negb (String.eqb (TimeFormat o) "none") /\
  (TimeFormat o = "none" ->
   cw_FormatTimestamp (fst (zconsoleWriter o w)) = Some timestamp_none).
Proof.
  unfold New, bind. split.
  - intros w' Hcolors. rewrite !zconsoleWriter_result, !setlevel_result.
    cbn [fst]. now rewrite Hcolors.
  - rewrite !zconsoleWriter_result, setlevel_result. cbn [fst].
    destruct (negb (String.eqb (TimeFormat o) "none")) eqn:Hts;
      repeat (split; [reflexivity |]);
      intros Hnone; unfold sink_of; cbn; rewrite Hnone; reflexivity.
Qed.

End NewLogger.

Lemma New_logger_shape_witness :
  fst (New (mkOptions 1 "none" FormatBW false)
           (snd (InitL 2 init_world))) =
  fst (New (mkOptions 1 "none" FormatBW false) init_world) /\
  cw_FormatTimestamp
    (fst (zconsoleWriter (mkOptions 1 "none" FormatBW false) init_world)) =
  Some timestamp_none.
Proof.
  pose proof (New_logger_shape (mkOptions 1 "none" FormatBW false) init_world)
    as [Hsame [_ [_ [_ [_ [_ Hnone]]]]]].
  split; [apply Hsame; reflexivity | apply Hnone; reflexivity].
Defined.
